(** * A shallow embedding of the HTTP/1.1 message codec (http.c), of the
      per-connection body of the server loop (server.c) and of the exchange
      performed by the command line client (client.c).

    Conventions of the embedding.
    - A C string, and the content of a stream, is a [list ascii].  A buffer
      filled by [getline] may hold NUL bytes; the string functions of libc see
      the bytes before the first NUL, which is what [c_str] computes.
    - A [FILE*] opened for reading is the list of bytes still to be read,
      the error (if any) that the descriptor raises once they are consumed,
      and the current value of [errno], which the code inspects.
    - A [FILE*] opened for writing accumulates the bytes written; a stream
      whose peer is gone is [os_broken] and refuses every write.
    - [malloc], [realloc], [strdup] and [strndup] are taken to succeed: the
      branches that handle their failure are not represented.
    - The buffer [getline] allocates has the sizes glibc gives it, for lines
      that reach the stream in one piece.  A function that calls [free] on a
      buffer [realloc] has released ends in [Fault].
    - The connection of the server is one stream opened for update on a
      socket: the bytes it has received and not yet consumed sit in its
      buffer, and a write that follows cannot be flushed over them. *)

From Stdlib Require Import Ascii String DecimalString.
From Stdlib Require DecimalPos.
From Stdlib Require Import ZArith Lia Bool Arith List.
From Equations Require Import Equations.
Import ListNotations.
Open Scope list_scope.

Definition bytes := list ascii.

Definition B (s : string) : bytes := list_ascii_of_string s.

Definition NUL : ascii := "000"%char.
Definition HT : ascii := "009"%char.
Definition LF : ascii := "010"%char.
Definition VT : ascii := "011"%char.
Definition FF : ascii := "012"%char.
Definition CR : ascii := "013"%char.
Definition SP : ascii := " "%char.
Definition COLON : ascii := ":"%char.
Definition SLASH : ascii := "/"%char.
Definition CRLF : bytes := [CR; LF].

(** The value of the macro [EOF] of stdio.h. *)
Definition EOF : Z := (-1)%Z.

(** ** The part of libc the codec relies on *)

Module Libc.

Fixpoint bytes_eqb (a b : bytes) : bool :=
  match a, b with
  | [], [] => true
  | x :: a', y :: b' => Ascii.eqb x y && bytes_eqb a' b'
  | _, _ => false
  end.

(** [mem c set]: the character [c] occurs in the C string [set]. *)
Definition mem (c : ascii) (set : bytes) : bool := existsb (Ascii.eqb c) set.

(** The C string stored in a buffer. *)
Fixpoint c_str (buf : bytes) : bytes :=
  match buf with
  | [] => []
  | c :: t => if Ascii.eqb c NUL then [] else c :: c_str t
  end.

Fixpoint strcspn (s reject : bytes) : nat :=
  match s with
  | [] => 0
  | c :: t => if mem c reject then 0 else S (strcspn t reject)
  end.

Fixpoint strspn (s accept : bytes) : nat :=
  match s with
  | [] => 0
  | c :: t => if mem c accept then S (strspn t accept) else 0
  end.

Definition strndup (s : bytes) (n : nat) : bytes := firstn n s.

(** [strcmp a b == 0]. *)
Definition strcmp0 (a b : bytes) : bool := bytes_eqb a b.

(** [strtok_r(s, delim, &saveptr)] on the string [s] (the first argument,
    or the saved pointer when the first argument is NULL): the token, if
    any, and the string [saveptr] points to afterwards.  When the token
    runs to the end of the string, [saveptr] is left on the terminating
    NUL, so it points to the empty string. *)
Definition strtok_r (s delim : bytes) : option bytes * bytes :=
  let s1 := skipn (strspn s delim) s in
  match s1 with
  | [] => (None, [])
  | _ :: _ =>
      let n := strcspn s1 delim in
      (Some (firstn n s1), match skipn n s1 with [] => [] | _ :: r => r end)
  end.

Definition isspace (c : ascii) : bool := mem c [SP; HT; LF; VT; FF; CR].

Definition digit_val (c : ascii) : option Z :=
  let n := Z.of_N (N_of_ascii c) in
  if ((48 <=? n) && (n <=? 57))%Z then Some (n - 48)%Z else None.

Fixpoint strtol_digits (s : bytes) (acc : Z) : Z * bytes :=
  match s with
  | [] => (acc, [])
  | c :: t =>
      match digit_val c with
      | Some d => strtol_digits t (acc * 10 + d)%Z
      | None => (acc, s)
      end
  end.

(** [long] is 64 bits wide (LP64). *)
Definition LONG_MAX : Z := (2 ^ 63 - 1)%Z.
Definition LONG_MIN : Z := (- 2 ^ 63)%Z.

Definition clamp_long (v : Z) : Z :=
  if (v >? LONG_MAX)%Z then LONG_MAX
  else if (v <? LONG_MIN)%Z then LONG_MIN else v.

(** [strtol(nptr, &endptr, 10)]: the value and the string [endptr] points
    to.  Without any digit no conversion is performed and [endptr] is
    [nptr] itself. *)
Definition strtol (nptr : bytes) : Z * bytes :=
  let s := skipn (strspn nptr [SP; HT; LF; VT; FF; CR]) nptr in
  let '(neg, s1) :=
    match s with
    | c :: t =>
        if Ascii.eqb c "-"%char then (true, t)
        else if Ascii.eqb c "+"%char then (false, t)
        else (false, s)
    | [] => (false, s)
    end in
  match s1 with
  | c :: _ =>
      match digit_val c with
      | Some _ =>
          let (v, rest) := strtol_digits s1 0 in
          (clamp_long (if neg then (- v)%Z else v), rest)
      | None => (0%Z, nptr)
      end
  | [] => (0%Z, nptr)
  end.

(** The conversion [%ld] of printf. *)
Definition print_long (z : Z) : bytes :=
  B (NilZero.string_of_int (Z.to_int z)).

End Libc.
Import Libc.

(** ** Streams *)

(** A stream being read. *)
Record rd_state := mk_rd {
  rd_pending : bytes;      (* bytes not read yet *)
  rd_fault : option Z;     (* the error raised after them, None: end of file *)
  rd_errno : Z             (* errno *)
}.

(** Reading past the pending bytes fails; a read error sets [errno], the end
    of the file leaves it as it was. *)
Definition rd_exhaust (st : rd_state) : rd_state :=
  mk_rd [] (rd_fault st)
        (match rd_fault st with Some e => e | None => rd_errno st end).

(** The first line of [s], its newline included, and what follows it. *)
Fixpoint split_line (s : bytes) : bytes * bytes :=
  match s with
  | [] => ([], [])
  | c :: t =>
      if Ascii.eqb c LF then ([c], t)
      else let (l, r) := split_line t in (c :: l, r)
  end.

(** [getline(&buf, &n, stream)]: [None] stands for the result -1. *)
Definition getline (st : rd_state) : option bytes * rd_state :=
  match rd_pending st with
  | [] => (None, rd_exhaust st)
  | _ :: _ =>
      let (l, r) := split_line (rd_pending st) in
      (Some l, mk_rd r (rd_fault st) (rd_errno st))
  end.

(** The size [*n] of the buffer after [getline] has stored a line of [len]
    bytes in a buffer of [n] bytes ([n] is 0 when there is no buffer yet):
    glibc allocates 120 bytes at first and, when the line and its NUL do
    not fit, calls [realloc] for the larger of what they need and twice the
    size. *)
Definition getline_size (n len : nat) : nat :=
  let n0 := if n =? 0 then 120 else n in
  if len + 1 <=? n0 then n0 else Nat.max (len + 1) (2 * n0).

(** [getline] has called [realloc] on the buffer it was given, which
    releases it. *)
Definition getline_reallocs (n len : nat) : bool :=
  negb (n =? 0) && (n <? len + 1).

(** [fgets(buf, n, stream)]: at most [n - 1] bytes, stopping after a
    newline; [None] stands for NULL. *)
Fixpoint fgets_split (k : nat) (s : bytes) : bytes * bytes :=
  match k, s with
  | 0, _ => ([], s)
  | _, [] => ([], [])
  | S k', c :: t =>
      if Ascii.eqb c LF then ([c], t)
      else let (l, r) := fgets_split k' t in (c :: l, r)
  end.

Definition fgets (n : nat) (st : rd_state) : option bytes * rd_state :=
  match rd_pending st with
  | [] => (None, rd_exhaust st)
  | _ :: _ =>
      let (l, r) := fgets_split (n - 1) (rd_pending st) in
      (Some l, mk_rd r (rd_fault st) (rd_errno st))
  end.

(** A stream being written. *)
Record out_stream := mk_os {
  os_written : bytes;
  os_broken : bool
}.

(** [fprintf(stream, ...)] where [s] is the formatted text: the number of
    bytes written, or a negative number. *)
Definition fprintf (o : out_stream) (s : bytes) : Z * out_stream :=
  if os_broken o then ((-1)%Z, o)
  else (Z.of_nat (length s), mk_os (os_written o ++ s) false).

(** [fwrite(buf, size, nmemb, stream)]: the number of items written. *)
Definition fwrite (buf : bytes) (size nmemb : nat) (o : out_stream)
  : nat * out_stream :=
  if (size * nmemb =? 0)%nat then (0%nat, o)
  else if os_broken o then (0%nat, o)
  else (nmemb, mk_os (os_written o ++ firstn (size * nmemb) buf) false).

(** [fflush(stream)]. *)
Definition fflush (o : out_stream) : Z := if os_broken o then EOF else 0%Z.

(** A regular file opened for reading and its position. *)
Record file := mk_file {
  f_data : bytes;
  f_pos : nat
}.

Definition ftell (f : file) : Z := Z.of_nat (f_pos f).
Definition fseek_end (f : file) : file := mk_file (f_data f) (length (f_data f)).
Definition fseek_set (f : file) (pos : Z) : file := mk_file (f_data f) (Z.to_nat pos).

(** The bytes between the position of the file and its end. *)
Definition f_remaining (f : file) : bytes := skipn (f_pos f) (f_data f).

(** [fread(buf, size, nmemb, f)]: the bytes stored in the buffer, the number
    of complete items read, and the file afterwards. *)
Definition fread (size nmemb : nat) (f : file) : bytes * nat * file :=
  let got := firstn (size * nmemb) (f_remaining f) in
  (got, (length got / size)%nat, mk_file (f_data f) (f_pos f + length got)).

(** ** http.h *)

Inductive http_method :=
| HTTP_GET | HTTP_HEAD | HTTP_POST | HTTP_PUT | HTTP_DELETE
| HTTP_CONNECT | HTTP_OPTIONS | HTTP_TRACE | HTTP_PATCH.

Record http_header := mk_header {
  key : bytes;
  value : bytes
}.

Record http_status_code := mk_status {
  code : Z;
  description : bytes
}.

Record http_req := mk_req {
  req_method : http_method;
  req_path : bytes;
  req_header : list http_header;
  req_body : option file
}.

Record http_res := mk_res {
  status_code : http_status_code;
  res_header : list http_header;
  res_body : option file
}.

(** The outcome of a function that returns 0 and fills a structure, or
    returns a negative code, or does not return: [Fault] stands for a call
    of [free] on a buffer that [realloc] has released, after which the
    program has no defined behaviour (glibc, when it detects the call,
    aborts the process). *)
Inductive result (A : Type) :=
| Ok (a : A)
| Err (e : Z)
| Fault.
Arguments Ok {A} a.
Arguments Err {A} e.
Arguments Fault {A}.

(** The codes documented in http.h. *)
Definition E_FAILURE : Z := (-1)%Z.
Definition E_MALFORMED_HEAD : Z := (-2)%Z.
Definition E_MALFORMED_HEADERS : Z := (-3)%Z.

(** ** http.c *)

Definition HTTP_METHOD_STRINGS (m : http_method) : bytes :=
  match m with
  | HTTP_GET => B "GET"
  | HTTP_HEAD => B "HEAD"
  | HTTP_POST => B "POST"
  | HTTP_PUT => B "PUT"
  | HTTP_DELETE => B "DELETE"
  | HTTP_CONNECT => B "CONNECT"
  | HTTP_OPTIONS => B "OPTIONS"
  | HTTP_TRACE => B "TRACE"
  | HTTP_PATCH => B "PATCH"
  end.

(** The indices of [HTTP_METHOD_STRINGS], in increasing order. *)
Definition all_methods : list http_method :=
  [HTTP_GET; HTTP_HEAD; HTTP_POST; HTTP_PUT; HTTP_DELETE;
   HTTP_CONNECT; HTTP_OPTIONS; HTTP_TRACE; HTTP_PATCH].

(** What one iteration of the loop of [extract_header] makes of the line it
    has read.  The array of headers, which the code doubles when it is
    full, is the list of the headers stored so far. *)
Inductive header_line :=
| HL_end
| HL_header (h : http_header)
| HL_malformed.

Definition parse_header_line (buf : bytes) : header_line :=
  let s := c_str buf in
  if strcmp0 s CRLF then HL_end
  else
    let delimer := strcspn s [COLON] in
    match skipn delimer s with
    | [] => HL_malformed                      (* buf[delimer] is the NUL *)
    | c :: after =>
        if negb (Ascii.eqb c COLON) then HL_malformed
        else
          let k := strndup s delimer in
          let v := skipn (strspn after [SP]) after in
          HL_header (mk_header k (strndup v (strcspn v CRLF)))
    end.

Lemma split_line_app s : fst (split_line s) ++ snd (split_line s) = s.
Proof.
  induction s as [|c t IH]; simpl; [reflexivity|].
  destruct (Ascii.eqb c LF); [reflexivity|].
  destruct (split_line t) as [l r]; simpl in *. now rewrite IH.
Qed.

Lemma split_line_nonempty c t : fst (split_line (c :: t)) <> [].
Proof.
  simpl. destruct (Ascii.eqb c LF); [discriminate|].
  destruct (split_line t); discriminate.
Qed.

Lemma getline_decreases st l st' :
  getline st = (Some l, st') -> length (rd_pending st') < length (rd_pending st).
Proof.
  unfold getline. destruct (rd_pending st) as [|c t]; [discriminate|].
  pose proof (split_line_app (c :: t)) as Happ.
  pose proof (split_line_nonempty c t) as Hne.
  destruct (split_line (c :: t)) as [l0 r]. cbn [fst snd] in *.
  intros H; inversion H; subst; clear H. cbn [rd_pending].
  rewrite <- Happ, length_app. destruct l; [congruence|simpl; lia].
Qed.

Definition inspect {A : Type} (a : A) : {b : A | a = b} := exist _ a eq_refl.

(** [extract_header]: the loop, entered with the headers stored so far.
    [buf] is passed by value and [line_n] by address: [line_n] is the size
    of the buffer, and [released] tells whether a [getline] of the loop has
    called [realloc] on it, so that the pointer the caller holds is no
    longer valid.  The outcome is what the function returns through its
    result and [*err], the stream, and [released]. *)
Equations? extract_header (st : rd_state) (line_n : nat) (released : bool)
    (header : list http_header)
  : result (list http_header) * rd_state * bool
  by wf (length (rd_pending st)) lt :=
  extract_header st line_n released header with inspect (getline st) := {
    | exist _ (None, st') _ =>
        (Err (if (rd_errno st' =? EOF)%Z then (-3)%Z else (-1)%Z), st', released)
    | exist _ (Some buf, st') Hline =>
        match parse_header_line buf with
        | HL_end =>
            (Ok header, st',
             released || getline_reallocs line_n (length buf))
        | HL_malformed =>
            (Err (-3)%Z, st',
             released || getline_reallocs line_n (length buf))
        | HL_header h =>
            extract_header st' (getline_size line_n (length buf))
                           (released || getline_reallocs line_n (length buf))
                           (header ++ [h])
        end }.
Proof.
  eapply getline_decreases; eassumption.
Qed.

(** What [recv_req] and [recv_res] do once [extract_header] has returned:
    they call [free(buf)] on their own pointer, then return. *)
Definition after_headers {A : Type} (released : bool) (r : result A) : result A :=
  if released then Fault else r.

(** [token[0] == '/'] *)
Definition starts_with_slash (token : bytes) : bool :=
  match token with
  | c :: _ => Ascii.eqb c SLASH
  | [] => false
  end.

(** The loop of [recv_req] over [HTTP_METHOD_STRINGS]. *)
Definition lookup_method (token : bytes) : option http_method :=
  find (fun m => strcmp0 token (HTTP_METHOD_STRINGS m)) all_methods.

(** [recv_req]: the structure filled on success (its body is never set), or
    the code returned, and the stream afterwards.  The first [getline]
    allocates [buf]; the ones of [extract_header] cannot update the pointer
    [recv_req] frees in the end. *)
Definition recv_req (st : rd_state) : result http_req * rd_state :=
  match getline st with
  | (None, st1) => (Err (if (rd_errno st1 =? EOF)%Z then (-2)%Z else (-1)%Z), st1)
  | (Some buf, st1) =>
      let line_n := getline_size 0 (length buf) in
      match strtok_r (c_str buf) [SP] with
      | (None, _) => (Err (-2)%Z, st1)
      | (Some token, saveptr) =>
          match lookup_method token with
          | None => (Err (-2)%Z, st1)
          | Some m =>
              match strtok_r saveptr [SP] with
              | (None, _) => (Err (-2)%Z, st1)
              | (Some path, saveptr2) =>
                  if negb (starts_with_slash path) then (Err (-2)%Z, st1)
                  else
                    match strtok_r saveptr2 [SP] with
                    | (None, _) => (Err (-2)%Z, st1)
                    | (Some proto, _) =>
                        if negb (strcmp0 proto (B "HTTP/1.1" ++ CRLF))
                        then (Err (-2)%Z, st1)
                        else
                          match extract_header st1 line_n false [] with
                          | (Err err, st2, released) =>
                              (after_headers released (Err err), st2)
                          | (Ok hs, st2, released) =>
                              (after_headers released
                                 (Ok (mk_req m path hs None)), st2)
                          | (Fault, st2, _) => (Fault, st2)
                          end
                    end
              end
          end
      end
  end.

(** [recv_res] *)
Definition recv_res (st : rd_state) : result http_res * rd_state :=
  match getline st with
  | (None, st1) => (Err (if (rd_errno st1 =? EOF)%Z then (-2)%Z else (-1)%Z), st1)
  | (Some buf, st1) =>
      let line_n := getline_size 0 (length buf) in
      match strtok_r (c_str buf) [SP] with
      | (None, _) => (Err (-2)%Z, st1)
      | (Some token, saveptr) =>
          if negb (strcmp0 token (B "HTTP/1.1")) then (Err (-2)%Z, st1)
          else
            match strtok_r saveptr [SP] with
            | (None, _) => (Err (-2)%Z, st1)
            | (Some token2, saveptr2) =>
                let (status, endptr) := strtol token2 in
                match endptr with
                | _ :: _ => (Err (-2)%Z, st1)
                | [] =>
                    let descr :=
                      match saveptr2 with
                      | _ :: _ => strndup saveptr2 (strcspn saveptr2 CRLF)
                      | [] => []
                      end in
                    match extract_header st1 line_n false [] with
                    | (Err err, st2, released) =>
                        (after_headers released (Err err), st2)
                    | (Ok hs, st2, released) =>
                        (after_headers released
                           (Ok (mk_res (mk_status status descr) hs None)), st2)
                    | (Fault, st2, _) => (Fault, st2)
                    end
                end
            end
      end
  end.

(** The loop writing the headers, shared in form by [send_req] and
    [send_res]: [false] when an [fprintf] failed. *)
Fixpoint send_headers (o : out_stream) (hs : list http_header)
  : bool * out_stream :=
  match hs with
  | [] => (true, o)
  | h :: rest =>
      let (r, o1) := fprintf o (key h ++ B ": " ++ value h ++ CRLF) in
      if (r <? 0)%Z then (false, o1) else send_headers o1 rest
  end.

(** [old_pos = ftell(body); fseek(body, 0, SEEK_END); file_ln = ftell(body);
    fseek(body, old_pos, SEEK_SET)]: the difference [file_ln - old_pos] and
    the file afterwards. *)
Definition measure_body (body : file) : Z * file :=
  let old_pos := ftell body in
  let body1 := fseek_end body in
  let file_ln := ftell body1 in
  let body2 := fseek_set body1 old_pos in
  ((file_ln - old_pos)%Z, body2).

Lemma fread_remaining size nmemb f :
  let '(got, n, f') := fread size nmemb f in
  got = firstn (size * nmemb) (f_remaining f) /\
  n = (length got / size)%nat /\
  f_remaining f' = skipn (length got) (f_remaining f).
Proof.
  unfold fread, f_remaining. cbn [f_data f_pos]. repeat split.
  now rewrite skipn_skipn, Nat.add_comm.
Qed.

Opaque fread fwrite.

(** The copy loop of [send_req]: [fread(buffer, 1024, 1, body)] then
    [fwrite(buffer, read_ln, 1, stream)].  The boolean is [false] when the
    loop is left by [return -1]. *)
Equations? send_req_body (body : file) (o : out_stream)
  : bool * out_stream
  by wf (length (f_remaining body)) lt :=
  send_req_body body o with inspect (fread 1024 1 body) := {
    | exist _ (buffer, read_ln, body') Hread
        with inspect (fwrite buffer read_ln 1 o) := {
        | exist _ (write_ln, o') _ with inspect (write_ln <? read_ln) := {
            | exist _ true _ => (false, o')
            | exist _ false _ with inspect (read_ln <? 1024) := {
                | exist _ true _ => (true, o')
                | exist _ false Hfull => send_req_body body' o' } } } }.
Proof.
  pose proof (fread_remaining 1024 1 body) as H.
  destruct (fread 1024 1 body) as [[buffer read_ln] body'].
  destruct H as (Hgot & Hn & _). apply Nat.ltb_ge in Hfull.
  assert (length buffer <= 1024) by (subst buffer; apply firstn_le_length).
  assert (read_ln <= 1).
  { subst read_ln. apply Nat.Div0.div_le_upper_bound. lia. }
  lia.
Qed.

(** The copy loop of [send_res]: [fread(buffer, 1, 1024, body)] then
    [fwrite(buffer, 1, read_ln, stream)]. *)
Equations? send_res_body (body : file) (o : out_stream)
  : bool * out_stream
  by wf (length (f_remaining body)) lt :=
  send_res_body body o with inspect (fread 1 1024 body) := {
    | exist _ (buffer, read_ln, body') Hread
        with inspect (fwrite buffer 1 read_ln o) := {
        | exist _ (write_ln, o') _ with inspect (write_ln <? read_ln) := {
            | exist _ true _ => (false, o')
            | exist _ false _ with inspect (read_ln <? 1024) := {
                | exist _ true _ => (true, o')
                | exist _ false Hfull => send_res_body body' o' } } } }.
Proof.
  pose proof (fread_remaining 1 1024 body) as H.
  destruct (fread 1 1024 body) as [[buffer read_ln] body'].
  destruct H as (Hgot & Hn & Hrem). apply Nat.ltb_ge in Hfull.
  rewrite Nat.div_1_r in Hn. subst read_ln.
  rewrite Hrem, length_skipn.
  assert (length buffer <= length (f_remaining body)).
  { subst buffer. rewrite length_firstn. lia. }
  lia.
Qed.

Transparent fread fwrite.

(** The path printed after the slash of the request line:
    [req->path[0] == '/' ? &req->path[1] : req->path]. *)
Definition path_after_slash (path : bytes) : bytes :=
  match path with
  | c :: rest => if Ascii.eqb c SLASH then rest else path
  | [] => path
  end.

(** The first line written by [send_req]. *)
Definition request_line (req : http_req) : bytes :=
  HTTP_METHOD_STRINGS (req_method req) ++ B " /"
    ++ path_after_slash (req_path req) ++ B " HTTP/1.1" ++ CRLF.

(** [send_req]: the value returned and the stream afterwards. *)
Definition send_req (o : out_stream) (req : http_req) : Z * out_stream :=
  let (r, o1) := fprintf o (request_line req) in
  if (r <? 0)%Z then ((-1)%Z, o1)
  else
    match send_headers o1 (req_header req) with
    | (false, o2) => ((-1)%Z, o2)
    | (true, o2) =>
        let (o3, body) :=
          match req_body req with
          | Some body0 =>
              let (len, body1) := measure_body body0 in
              (snd (fprintf o2 (B "Content-Length: " ++ print_long len ++ CRLF)),
               Some body1)
          | None => (o2, None)
          end in
        let (r, o4) := fprintf o3 (B "Connection: close" ++ CRLF ++ CRLF) in
        if (r <? 0)%Z then ((-1)%Z, o4)
        else
          let (sent, o5) :=
            match body with
            | Some body1 => send_req_body body1 o4
            | None => (true, o4)
            end in
          if negb sent then ((-1)%Z, o5)
          else if (fflush o5 =? EOF)%Z then ((-1)%Z, o5)
          else (0%Z, o5)
    end.

(** The first line written by [send_res]. *)
Definition status_line (res : http_res) : bytes :=
  B "HTTP/1.1 " ++ print_long (code (status_code res)) ++ [SP]
    ++ description (status_code res) ++ CRLF.

(** [send_res].  [date] is the text [strftime] produces for the current
    time, or [None] when [gmtime] returns NULL. *)
Definition send_res (date : option bytes) (o : out_stream) (res : http_res)
  : Z * out_stream :=
  let (r, o1) := fprintf o (status_line res) in
  if (r <? 0)%Z then ((-1)%Z, o1)
  else
    match send_headers o1 (res_header res) with
    | (false, o2) => ((-1)%Z, o2)
    | (true, o2) =>
        match date with
        | None => ((-1)%Z, o2)
        | Some d =>
            let (len, body) :=
              match res_body res with
              | Some body0 =>
                  let (len, body1) := measure_body body0 in (len, Some body1)
              | None => (0%Z, None)
              end in
            let (r, o3) :=
              fprintf o2 (B "Date: " ++ d ++ CRLF
                            ++ B "Content-Length: " ++ print_long len ++ CRLF
                            ++ B "Connection: close" ++ CRLF ++ CRLF) in
            if (r <? 0)%Z then ((-1)%Z, o3)
            else
              let (sent, o4) :=
                match body with
                | Some body1 => send_res_body body1 o3
                | None => (true, o3)
                end in
              if negb sent then ((-1)%Z, o4)
              else if (fflush o4 =? EOF)%Z then ((-1)%Z, o4)
              else (0%Z, o4)
        end
    end.

(** An empty stream that accepts writes, and the reading end of a
    connection on which [wire] has been sent before the peer closed. *)
Definition os_empty : out_stream := mk_os [] false.
Definition rd_of (wire : bytes) (errno : Z) : rd_state := mk_rd wire None errno.


(** [clear_http_head]: the stream once the head has been skipped. *)
Lemma fgets_split_app k s :
  fst (fgets_split k s) ++ snd (fgets_split k s) = s.
Proof.
  revert s. induction k as [|k IH]; intros [|c t]; simpl; try reflexivity.
  destruct (Ascii.eqb c LF); [reflexivity|].
  specialize (IH t). destruct (fgets_split k t); simpl in *. now rewrite IH.
Qed.

Lemma fgets_decreases n st l st' :
  2 <= n -> fgets n st = (Some l, st') ->
  length (rd_pending st') < length (rd_pending st).
Proof.
  unfold fgets. intros Hn. destruct (rd_pending st) as [|c t]; [discriminate|].
  pose proof (fgets_split_app (n - 1) (c :: t)) as Happ.
  destruct (n - 1) as [|k] eqn:Hk; [lia|].
  assert (Hne : fst (fgets_split (S k) (c :: t)) <> []).
  { simpl. destruct (Ascii.eqb c LF); [discriminate|].
    destruct (fgets_split k t); discriminate. }
  destruct (fgets_split (S k) (c :: t)) as [l0 r]. cbn [fst snd] in *.
  intros H; inversion H; subst; clear H. cbn [rd_pending].
  rewrite <- Happ, length_app. destruct l; [congruence|simpl; lia].
Qed.

Opaque fgets.

Equations? clear_http_head (st : rd_state) : rd_state
  by wf (length (rd_pending st)) lt :=
  clear_http_head st with inspect (fgets 1024 st) := {
    | exist _ (None, st') _ => st'
    | exist _ (Some buf, st') Hline =>
        if strcmp0 (c_str buf) CRLF then st' else clear_http_head st' }.
Proof.
  eapply (fgets_decreases 1024); [lia | eassumption].
Qed.

Transparent fgets.

(** ** server.c *)

(** A message on standard error.  For [perror] the text that follows the
    message (the description of [errno]) is left out. *)
Inductive log_entry :=
| Log_fprintf (text : bytes)
| Log_perror (msg : bytes).

Inductive fopen_outcome :=
| Opened (f : file)
| Open_failed (errno : Z).

Definition ENOENT : Z := 2%Z.
Definition EACCES : Z := 13%Z.

(** What the loop body is given: the arguments, the file system as seen by
    [fopen(path, "r")], and the clock read by [send_res]. *)
Record server_env := mk_env {
  doc_root : bytes;
  index : bytes;
  fs_open : bytes -> fopen_outcome;
  clock : option bytes
}.

(** How an iteration of the accept loop ends.  The code leaves [main] from
    inside the loop only when [malloc] fails, which is not represented, so
    an iteration below ends in [Continue], unless [recv_req] ends in
    [Fault]: then the iteration has no defined end. *)
Inductive loop_control :=
| Continue
| Return (status : Z)
| Undefined.

Record served := mk_served {
  sv_wire : out_stream;          (* the connection, as written *)
  sv_conn_in : rd_state;         (* the connection, as read *)
  sv_stderr : list log_entry;
  sv_opened : option bytes;      (* the path given to fopen, when called *)
  sv_closed : bool;              (* fclose(connection) *)
  sv_next : loop_control
}.

Definition plain_res (c : Z) (descr : string) : http_res :=
  mk_res (mk_status c (B descr)) [] None.

(** The file name built from the request path. *)
Definition resolve_path (env : server_env) (path : bytes) : bytes :=
  match path with
  | [] => doc_root env ++ [SLASH] ++ index env
  | _ :: _ =>
      if Ascii.eqb (last path NUL) SLASH
      then doc_root env ++ path ++ index env
      else doc_root env ++ path
  end.

Fixpoint strrchr (s : bytes) (c : ascii) : option bytes :=
  match s with
  | [] => None
  | x :: t =>
      match strrchr t c with
      | Some r => Some r
      | None => if Ascii.eqb x c then Some s else None
      end
  end.

Definition mime_of (path : bytes) : option bytes :=
  match strrchr path "."%char with
  | None => None
  | Some extension =>
      if strcmp0 extension (B ".html") || strcmp0 extension (B ".htm")
      then Some (B "text/html")
      else if strcmp0 extension (B ".css") then Some (B "text/css")
      else if strcmp0 extension (B ".js") then Some (B "application/javascript")
      else None
  end.

(** The response chosen once the file name is known, and what is logged
    before it is sent. *)
Definition file_response (env : server_env) (path : bytes)
  : http_res * list log_entry :=
  match fs_open env path with
  | Open_failed e =>
      if (e =? ENOENT)%Z then (plain_res 404 "Not Found", [])
      else if (e =? EACCES)%Z then (plain_res 403 "Forbidden", [])
      else (plain_res 500 "Internal Server Error",
            [Log_perror (B "Failed to access file")])
  | Opened body =>
      match mime_of path with
      | Some mime =>
          (mk_res (mk_status 200 (B "OK"))
                  [mk_header (B "Content-Type") mime] (Some body), [])
      | None => (mk_res (mk_status 200 (B "OK")) [] (Some body), [])
      end
  end.

Definition send_failed : list log_entry := [Log_perror (B "Failed to send response")].

(** The connection as [send_res] finds it.  It is the stream [recv_req] has
    read, opened by [fdopen(fd, "r+")]: when bytes received from the client
    are still unread in its buffer, what is written after them can only be
    flushed once the descriptor has been moved back over them, which a
    socket refuses, so that nothing is sent and [send_res] returns -1. *)
Definition conn_out (st : rd_state) (o : out_stream) : out_stream :=
  match rd_pending st with
  | [] => o
  | _ :: _ => mk_os (os_written o) true
  end.

(** The body of the accept loop of [main], from [recv_req] on, for an
    accepted connection: [st] is what the connection has received and [o]
    what it has sent. *)
Definition serve_connection (env : server_env) (st : rd_state) (o : out_stream)
  : served :=
  match recv_req st with
  | (Fault, st1) => mk_served o st1 [] None false Undefined
  | (Err err_code, st1) =>
      if (err_code =? -2)%Z || (err_code =? -3)%Z then
        let log := [Log_fprintf (B "Received malformed packet" ++ [LF])] in
        let st2 := clear_http_head st1 in
        let (r, o1) :=
          send_res (clock env) (conn_out st2 o) (plain_res 400 "Bad Request") in
        if (r =? -1)%Z
        then mk_served o1 st2 (log ++ send_failed) None true Continue
        else mk_served o1 st2 log None true Continue
      else
        mk_served o st1 [Log_perror (B "Error while reading request")]
                  None true Continue
  | (Ok req, st1) =>
      let (r, o1) :=
        match req_method req with
        | HTTP_GET => (0%Z, o)
        | _ => send_res (clock env) (conn_out st1 o)
                        (plain_res 501 "Not implemented")
        end in
      if (r =? -1)%Z then mk_served o1 st1 send_failed None true Continue
      else
        let path := resolve_path env (req_path req) in
        let (res, log) := file_response env path in
        let (r2, o2) := send_res (clock env) (conn_out st1 o1) res in
        mk_served o2 st1
                  (log ++ if (r2 =? -1)%Z then send_failed else [])
                  (Some path) true Continue
  end.

(** ** client.c *)

(** [fread(buffer, 1, n, stream)] on a connection: the bytes read and
    whether the error indicator of the stream is set afterwards. *)
Definition fread_conn (n : nat) (st : rd_state) : bytes * bool * rd_state :=
  let got := firstn n (rd_pending st) in
  let rest := skipn n (rd_pending st) in
  if length got <? n then
    (got, match rd_fault st with Some _ => true | None => false end,
     mk_rd [] (rd_fault st)
           (match rd_fault st with Some e => e | None => rd_errno st end))
  else (got, false, mk_rd rest (rd_fault st) (rd_errno st)).

Lemma fread_conn_decreases n st got err st' :
  fread_conn n st = (got, err, st') -> (length got <? n) = false -> 0 < n ->
  length (rd_pending st') < length (rd_pending st).
Proof.
  unfold fread_conn. destruct (length (firstn n (rd_pending st)) <? n) eqn:E.
  - intros H; inversion H; subst. congruence.
  - intros H _ Hn; inversion H; subst; clear H. cbn [rd_pending].
    apply Nat.ltb_ge in E. rewrite length_firstn in E. rewrite length_skipn. lia.
Qed.

Record client_run := mk_run {
  cl_exit : Z;
  cl_stderr : list log_entry;
  cl_sink : out_stream;          (* the output file, or standard output *)
  cl_wire : out_stream;          (* the connection, as written *)
  cl_fault : bool                (* [recv_res] ended in [Fault]: what the
                                    program does next is not defined, and
                                    [cl_exit] is not the status of an exit *)
}.

Opaque fread_conn fwrite.

(** The loop copying the body of the response to the sink: the exit status
    when the loop ends in [return EXIT_FAILURE], what is logged, and the
    sink. *)
Equations? copy_response (st : rd_state) (sink : out_stream)
  : option Z * list log_entry * out_stream
  by wf (length (rd_pending st)) lt :=
  copy_response st sink with inspect (fread_conn 1024 st) := {
    | exist _ (buffer, true, st') _ =>
        (Some 1%Z, [Log_perror (B "Error while reading stream")], sink)
    | exist _ (buffer, false, st') Hread
        with inspect (fwrite buffer 1 (length buffer) sink) := {
        | exist _ (write_ln, sink') _
            with inspect (write_ln <? length buffer) := {
            | exist _ true _ =>
                (Some 1%Z, [Log_perror (B "Error while writing stream")], sink')
            | exist _ false _ with inspect (length buffer <? 1024) := {
                | exist _ true _ => (None, [], sink')
                | exist _ false Hfull => copy_response st' sink' } } } }.
Proof.
  eapply fread_conn_decreases; [eassumption | assumption | lia].
Qed.

Transparent fread_conn fwrite.

(** [main] of the client from the construction of the request on: [host]
    and [path] come from the URL, [wire] and [reply] are the two directions
    of the connection, [sink] is where the body goes. *)
Definition client_exchange (host path : bytes) (wire : out_stream)
  (reply : rd_state) (sink : out_stream) : client_run :=
  let req := mk_req HTTP_GET path [mk_header (B "Host") host] None in
  let (r, wire1) := send_req wire req in
  if (r =? -1)%Z
  then mk_run 1 [Log_perror (B "Failed to send request")] sink wire1 false
  else
    match recv_res reply with
    | (Fault, _) => mk_run (-1) [] sink wire1 true
    | (Err err_code, _) =>
        if (err_code =? -2)%Z || (err_code =? -3)%Z
        then mk_run 2 [Log_fprintf (B "Protocol error!" ++ [LF])] sink wire1 false
        else mk_run 1 [Log_perror (B "Error while receiving response")]
                    sink wire1 false
    | (Ok res, reply1) =>
        if negb (code (status_code res) =? 200)%Z then
          mk_run 3
            [Log_fprintf (print_long (code (status_code res)) ++ [SP]
                            ++ description (status_code res) ++ [LF])]
            sink wire1 false
        else
          let '(failed, log, sink1) := copy_response reply1 sink in
          match failed with
          | Some status => mk_run status log sink1 wire1 false
          | None => mk_run 0 log sink1 wire1 false
          end
    end.

(** [strncmp(a, b, n) == 0], for strings [a] and [b]. *)
Definition strncmp0 (a b : bytes) (n : nat) : bool :=
  bytes_eqb (firstn n a) (firstn n b).

(** [parse_url]: the host and the path, or the code returned. *)
Definition parse_url (url : bytes) : result (bytes * bytes) :=
  if negb (strncmp0 url (B "http://") 7) then Err (-2)%Z
  else
    let host_ln := strcspn (skipn 7 url) (B ";/?:@=&") in
    Ok (strndup (skipn 7 url) host_ln, skipn (7 + host_ln) url).

(** The name under which the option [-d] stores the response: what
    follows the last slash of the path of the URL, or [index.html]. *)
Definition output_name (url_path : bytes) : bytes :=
  match strrchr url_path SLASH with
  | None => B "index.html"
  | Some file =>
      match file with
      | _ :: c :: rest =>
          if Ascii.eqb c "?"%char then B "index.html" else c :: rest
      | _ => B "index.html"                 (* file[1] is the NUL *)
      end
  end.

(** The file opened for the option [-d]: [strcpy], [strcat] and
    [strncat(path, file, strcspn(file, "?"))]. *)
Definition output_path (dir url_path : bytes) : bytes :=
  let file := output_name url_path in
  dir ++ [SLASH] ++ firstn (strcspn file (B "?")) file.

(** The arguments as [parse_args] leaves them. *)
Record client_args := mk_args {
  arg_port : bytes;
  arg_url : bytes;
  arg_file : option bytes;
  arg_dir : option bytes
}.

(** What [init_client_conn] returns: the two directions of the stream, or
    NULL with, possibly, the message of [gai_strerror]. *)
Inductive conn_outcome :=
| Connected (wire : out_stream) (reply : rd_state)
| Refused (err : option bytes).

(** What [main] finds around it: [fopen(path, "w")], the network, and
    standard output. *)
Record client_world := mk_world {
  cw_fopen : bytes -> option out_stream;
  cw_connect : bytes -> bytes -> conn_outcome;
  cw_stdout : out_stream
}.

Record client_outcome := mk_outcome {
  co_exit : Z;
  co_stderr : list log_entry;
  co_opened : list bytes;        (* the files opened for writing, in order *)
  co_connected : option (bytes * bytes);  (* host and port connected to *)
  co_sink : option out_stream;   (* where the body went, after the exchange *)
  co_wire : option out_stream;   (* the connection, as written *)
  co_fault : bool                (* the exchange ended in [Fault] *)
}.

(** [main] of the client, after [parse_args]. *)
Definition client_main (args : client_args) (w : client_world) : client_outcome :=
  match parse_url (arg_url args) with
  | Fault =>                     (* not an outcome of [parse_url] *)
      mk_outcome (-1) [] [] None None None true
  | Err err_code =>
      mk_outcome 1
        [if (err_code =? -2)%Z then Log_fprintf (B "Invalid URL" ++ [LF])
         else Log_perror (B "Failed to parse URL")]
        [] None None None false
  | Ok (host, path) =>
      let open_failed opened :=
        mk_outcome 1 [Log_perror (B "Failed to open file")] opened
                   None None None false in
      let connect (opened : list bytes) (outStream : option out_stream) :=
        match cw_connect w host (arg_port args) with
        | Refused None =>
            mk_outcome 1 [Log_perror (B "Failed to initiate connection")]
                       opened None None None false
        | Refused (Some err) =>
            mk_outcome 1
              [Log_fprintf (B "Failed to initiate connection: " ++ err ++ [LF])]
              opened None None None false
        | Connected wire reply =>
            let sink :=
              match outStream with
              | Some f => f
              | None => cw_stdout w
              end in
            let r := client_exchange host path wire reply sink in
            mk_outcome (cl_exit r) (cl_stderr r) opened
                       (Some (host, arg_port args))
                       (Some (cl_sink r)) (Some (cl_wire r)) (cl_fault r)
        end in
      let with_dir (opened : list bytes) (outStream : option out_stream) :=
        match arg_dir args with
        | None => connect opened outStream
        | Some dir =>
            let name := output_path dir path in
            match cw_fopen w name with
            | None => open_failed (opened ++ [name])
            | Some f => connect (opened ++ [name]) (Some f)
            end
        end in
      match arg_file args with
      | None => with_dir [] None
      | Some file =>
          match cw_fopen w file with
          | None => open_failed [file]
          | Some f => with_dir [file] (Some f)
          end
      end
  end.

(** * Vocabulary of the statements *)

(** ** Texts *)

(** [free_of set s]: no character of [set] occurs in [s]. *)
Definition free_of (set s : bytes) : bool :=
  forallb (fun c => negb (mem c set)) s.

(** [starts_with c s]: [s[0] == c]. *)
Definition starts_with (c : ascii) (s : bytes) : bool :=
  match s with
  | x :: _ => Ascii.eqb x c
  | [] => false
  end.

(** The text [send_req] and [send_res] write for a header. *)
Definition header_text (h : http_header) : bytes :=
  key h ++ B ": " ++ value h ++ CRLF.

Definition headers_text (hs : list http_header) : bytes :=
  concat (map header_text hs).

(** The header [send_req] adds to every request. *)
Definition connection_close : http_header :=
  mk_header (B "Connection") (B "close").

(** The number of bytes between the position of a file and its end. *)
Definition remaining_length (body : file) : Z :=
  (Z.of_nat (length (f_data body)) - Z.of_nat (f_pos body))%Z.

(** The head [send_req] writes, and the part of the body that follows. *)
Definition req_head_text (req : http_req) : bytes :=
  request_line req ++ headers_text (req_header req)
    ++ match req_body req with
       | Some body =>
           B "Content-Length: " ++ print_long (remaining_length body) ++ CRLF
       | None => []
       end
    ++ B "Connection: close" ++ CRLF ++ CRLF.

Definition req_body_sent (req : http_req) : bytes :=
  match req_body req with
  | Some body =>
      if 1024 <=? length (f_remaining body)
      then firstn 1 (f_remaining body) else []
  | None => []
  end.

(** The text [send_res] writes when the clock reads [d]. *)
Definition res_text (d : bytes) (res : http_res) : bytes :=
  status_line res ++ headers_text (res_header res)
    ++ B "Date: " ++ d ++ CRLF
    ++ B "Content-Length: "
    ++ print_long (match res_body res with
                   | Some body => remaining_length body
                   | None => 0%Z
                   end) ++ CRLF
    ++ B "Connection: close" ++ CRLF ++ CRLF
    ++ match res_body res with
       | Some body => f_remaining body
       | None => []
       end.

(** A request line with [S a] spaces after the method and [S b] spaces
    after the path. *)
Definition spaced_request_line (m : http_method) (p : bytes) (a b : nat) : bytes :=
  HTTP_METHOD_STRINGS m ++ repeat SP (S a) ++ p ++ repeat SP (S b)
    ++ B "HTTP/1.1" ++ CRLF.

(** ** What survives the wire *)

(** Headers that survive the wire: the key holds no colon, the value does
    not start with a space, and neither holds CR, LF (or NUL, which no C
    string does). *)
Definition wire_key (k : bytes) : bool := free_of [COLON; CR; LF; NUL] k.

Definition wire_value (v : bytes) : bool :=
  free_of [CR; LF; NUL] v && negb (starts_with SP v).

Definition wire_header (h : http_header) : bool :=
  wire_key (key h) && wire_value (value h).

(** Paths that survive the wire. *)
Definition wire_path (p : bytes) : bool :=
  starts_with_slash p && free_of [SP; LF; NUL] p.

(** ** The line buffer *)

(** The size of the buffer [recv_req] and [recv_res] hand to
    [extract_header], after the first line [first] of the message. *)
Definition line_buffer (first : bytes) : nat :=
  getline_size 0 (length first).

(** Header lines that fit, with their NUL, in a buffer of [n] bytes: reading
    them does not make [getline] call [realloc]. *)
Definition headers_fit (n : nat) (hs : list http_header) : bool :=
  forallb (fun h => length (header_text h) <? n) hs.

(** ** The specification, where it departs from the code *)

(** The round trip as the specification words it: the decoded request has
    the method, the path and the header sequence of the encoded one. *)
Definition roundtrip_as_specified (req : http_req) : Prop :=
  exists r st,
    recv_req (rd_of (os_written (snd (send_req os_empty req))) 0) = (Ok r, st)
    /\ req_method r = req_method req
    /\ req_path r = req_path req
    /\ req_header r = req_header req.

(** The clean close as the specification words it: a code of its own, and
    a server that closes the connection and goes on without logging. *)
Definition clean_close_as_specified (env : server_env) (e : Z) (o : out_stream)
  : Prop :=
  exists c st,
    recv_req (rd_of [] e) = (Err c, st)
    /\ c <> E_MALFORMED_HEAD /\ c <> E_MALFORMED_HEADERS
    /\ sv_stderr (serve_connection env (rd_of [] e) o) = []
    /\ sv_closed (serve_connection env (rd_of [] e) o) = true
    /\ sv_next (serve_connection env (rd_of [] e) o) = Continue.




(** The path without any of its leading slashes. *)
Fixpoint strip_slashes (p : bytes) : bytes :=
  match p with
  | c :: t => if Ascii.eqb c SLASH then strip_slashes t else p
  | [] => []
  end.

(** The request line as the specification words it: exactly one slash,
    however many the caller supplied. *)
Definition request_line_as_specified (req : http_req) : bytes :=
  HTTP_METHOD_STRINGS (req_method req) ++ B " /"
    ++ strip_slashes (req_path req) ++ B " HTTP/1.1" ++ CRLF.

(** ** Sample inputs *)

Definition host_req : http_req :=
  mk_req HTTP_GET (B "/a/b") [mk_header (B "Host") (B "example.com")] None.

(** A request whose body holds five bytes, none of them read yet. *)
Definition hello_req : http_req :=
  mk_req HTTP_GET (B "/") [] (Some (mk_file (B "hello") 0)).

(** A request whose body holds 1025 bytes. *)
Definition long_req : http_req :=
  mk_req HTTP_GET (B "/") [] (Some (mk_file (repeat "a"%char 1024 ++ B "z") 0)).



(** A request cut after its first header line. *)
Definition truncated_request : bytes :=
  B "GET / HTTP/1.1" ++ CRLF ++ B "Host: x" ++ CRLF.

(** A server rooted at /srv that holds the single file /srv/index.html. *)
Definition srv_env : server_env :=
  mk_env (B "/srv") (B "index.html")
         (fun p => if bytes_eqb p (B "/srv/index.html")
                   then Opened (mk_file (B "<h1>Hi</h1>") 0)
                   else Open_failed ENOENT)
         (Some (B "Mon, 02 Jan 2023 10:00:00 GMT")).

(** ** Decimal texts *)

Definition is_digit (c : ascii) : bool :=
  match digit_val c with
  | Some _ => true
  | None => false
  end.

(** The digits of a decimal number, as characters. *)
Definition uint_text (u : Decimal.uint) : bytes :=
  B (NilEmpty.string_of_uint u).

(** The value [strtol_digits] accumulates over the digits of [u]. *)
Fixpoint uint_val (u : Decimal.uint) (acc : Z) : Z :=
  match u with
  | Decimal.Nil => acc
  | Decimal.D0 l => uint_val l (acc * 10 + 0)
  | Decimal.D1 l => uint_val l (acc * 10 + 1)
  | Decimal.D2 l => uint_val l (acc * 10 + 2)
  | Decimal.D3 l => uint_val l (acc * 10 + 3)
  | Decimal.D4 l => uint_val l (acc * 10 + 4)
  | Decimal.D5 l => uint_val l (acc * 10 + 5)
  | Decimal.D6 l => uint_val l (acc * 10 + 6)
  | Decimal.D7 l => uint_val l (acc * 10 + 7)
  | Decimal.D8 l => uint_val l (acc * 10 + 8)
  | Decimal.D9 l => uint_val l (acc * 10 + 9)
  end%Z.

(** The three headers [send_res] adds after those of the response. *)
Definition added_headers (d : bytes) (res : http_res) : list http_header :=
  [mk_header (B "Date") d;
   mk_header (B "Content-Length")
             (print_long (match res_body res with
                          | Some body => remaining_length body
                          | None => 0%Z
                          end));
   connection_close].

(** The head [send_res] writes, without the body. *)
Definition res_head_text (d : bytes) (res : http_res) : bytes :=
  status_line res ++ headers_text (res_header res ++ added_headers d res) ++ CRLF.

(** The bytes of a response body that are still to be read. *)
Definition body_bytes (body : option file) : bytes :=
  match body with
  | Some f => f_remaining f
  | None => []
  end.

(** ** Lines of a head *)

(** A line [clear_http_head] reads in one call of [fgets] and does not take
    for the blank line: shorter than the buffer, and not a lone CR. *)
Definition head_line (b : bytes) : bool :=
  free_of [LF] b && (length b <? 1023) && negb (bytes_eqb b [CR]).

Definition lines_text (bs : list bytes) : bytes :=
  concat (map (fun b => b ++ [LF]) bs).

(** ** URLs *)

(** The characters that end the host of a URL. *)
Definition url_delimiters : bytes := B ";/?:@=&".

(** [opens_with set s]: [s] is empty or starts with a character of [set]. *)
Definition opens_with (set s : bytes) : bool :=
  match s with
  | [] => true
  | c :: _ => mem c set
  end.

(** ** A client and a server, face to face *)

(** The request the client builds for a URL. *)
Definition client_request (host path : bytes) : http_req :=
  mk_req HTTP_GET path [mk_header (B "Host") host] None.

(** What the server does with the request of the client, when nothing is
    lost on the way: the connection carries to the server exactly the bytes
    [send_req] writes. *)
Definition served_to (env : server_env) (host path : bytes) : served :=
  serve_connection env
    (rd_of (os_written (snd (send_req os_empty (client_request host path)))) 0)
    os_empty.

(** What the client does when the connection then carries back exactly
    the bytes the server has written, and is closed. *)
Definition fetched_from (env : server_env) (host path : bytes)
  (sink : out_stream) : client_run :=
  client_exchange host path os_empty
    (rd_of (os_written (sv_wire (served_to env host path))) 0) sink.

(** * Properties *)

(** ** The equations of the loops *)

Lemma extract_header_eq st line_n released header :
  extract_header st line_n released header =
  match getline st with
  | (None, st') =>
      (Err (if (rd_errno st' =? EOF)%Z then (-3)%Z else (-1)%Z), st', released)
  | (Some buf, st') =>
      match parse_header_line buf with
      | HL_end =>
          (Ok header, st', released || getline_reallocs line_n (length buf))
      | HL_malformed =>
          (Err (-3)%Z, st', released || getline_reallocs line_n (length buf))
      | HL_header h =>
          extract_header st' (getline_size line_n (length buf))
                         (released || getline_reallocs line_n (length buf))
                         (header ++ [h])
      end
  end.
Proof.
  rewrite extract_header_equation_1.
  destruct (inspect (getline st)) as [[[buf|] st'] Hline];
    simp extract_header; rewrite Hline; reflexivity.
Qed.

Opaque fread fwrite.

Lemma send_req_body_eq body o :
  send_req_body body o =
  let '(buffer, read_ln, body') := fread 1024 1 body in
  let (write_ln, o') := fwrite buffer read_ln 1 o in
  if write_ln <? read_ln then (false, o')
  else if read_ln <? 1024 then (true, o')
  else send_req_body body' o'.
Proof.
  rewrite send_req_body_equation_1.
  destruct (inspect (fread 1024 1 body)) as [[[buffer read_ln] body'] Hread].
  simp send_req_body.
  destruct (inspect (fwrite buffer read_ln 1 o)) as [[write_ln o'] Hwrite].
  simp send_req_body.
  destruct (inspect (write_ln <? read_ln)) as [[|] Hshort]; simp send_req_body;
    [rewrite Hread; cbv beta iota; rewrite Hwrite; cbv beta iota;
     now rewrite Hshort|].
  destruct (inspect (read_ln <? 1024)) as [[|] Hlast];
    unfold send_req_body_unfold_clause_1_clause_1_clause_1_clause_2;
    rewrite Hread; cbv beta iota; rewrite Hwrite; cbv beta iota;
    rewrite Hshort, Hlast; reflexivity.
Qed.

Lemma send_res_body_eq body o :
  send_res_body body o =
  let '(buffer, read_ln, body') := fread 1 1024 body in
  let (write_ln, o') := fwrite buffer 1 read_ln o in
  if write_ln <? read_ln then (false, o')
  else if read_ln <? 1024 then (true, o')
  else send_res_body body' o'.
Proof.
  rewrite send_res_body_equation_1.
  destruct (inspect (fread 1 1024 body)) as [[[buffer read_ln] body'] Hread].
  simp send_res_body.
  destruct (inspect (fwrite buffer 1 read_ln o)) as [[write_ln o'] Hwrite].
  simp send_res_body.
  destruct (inspect (write_ln <? read_ln)) as [[|] Hshort]; simp send_res_body;
    [rewrite Hread; cbv beta iota; rewrite Hwrite; cbv beta iota;
     now rewrite Hshort|].
  destruct (inspect (read_ln <? 1024)) as [[|] Hlast];
    unfold send_res_body_unfold_clause_1_clause_1_clause_1_clause_2;
    rewrite Hread; cbv beta iota; rewrite Hwrite; cbv beta iota;
    rewrite Hshort, Hlast; reflexivity.
Qed.

Transparent fread fwrite.


(** ** Strings *)

Lemma bytes_eqb_eq a b : bytes_eqb a b = true <-> a = b.
Proof.
  revert b. induction a as [|x a IH]; intros [|y b]; simpl; split;
    try congruence; try discriminate.
  - intros H. apply andb_true_iff in H as [Hx Hab].
    apply Ascii.eqb_eq in Hx. apply IH in Hab. congruence.
  - intros H. inversion H; subst. rewrite Ascii.eqb_refl. simpl. now apply IH.
Qed.

Lemma bytes_eqb_refl a : bytes_eqb a a = true.
Proof. now apply bytes_eqb_eq. Qed.

Lemma bytes_eqb_neq a b : a <> b -> bytes_eqb a b = false.
Proof.
  intros H. destruct (bytes_eqb a b) eqn:E; [|reflexivity].
  apply bytes_eqb_eq in E. contradiction.
Qed.

Lemma mem_In c set : mem c set = true <-> In c set.
Proof.
  unfold mem. rewrite existsb_exists. split.
  - intros (x & Hx & E). apply Ascii.eqb_eq in E. now subst.
  - intros H. exists c. split; [assumption | apply Ascii.eqb_refl].
Qed.

Lemma mem_single x c : mem x [c] = Ascii.eqb x c.
Proof. unfold mem. simpl. apply orb_false_r. Qed.

Lemma free_of_In set s : free_of set s = true <-> (forall c, In c s -> ~ In c set).
Proof.
  unfold free_of. rewrite forallb_forall. split; intros H c Hc.
  - specialize (H c Hc). intros Hset. apply mem_In in Hset.
    rewrite Hset in H. discriminate.
  - destruct (mem c set) eqn:E; [|reflexivity].
    apply mem_In in E. now apply H in Hc.
Qed.

Lemma free_of_incl set set' s :
  incl set' set -> free_of set s = true -> free_of set' s = true.
Proof.
  rewrite !free_of_In. intros Hi H c Hc Hset. apply (H c Hc). now apply Hi.
Qed.

Lemma free_of_cons set x s :
  free_of set (x :: s) = negb (mem x set) && free_of set s.
Proof. reflexivity. Qed.

Lemma free_of_app set a b :
  free_of set (a ++ b) = free_of set a && free_of set b.
Proof. apply forallb_app. Qed.

Lemma free_of_repeat set c n : mem c set = false -> free_of set (repeat c n) = true.
Proof. intros H. induction n; simpl; [reflexivity|]. now rewrite H. Qed.

Lemma c_str_app a b : free_of [NUL] a = true -> c_str (a ++ b) = a ++ c_str b.
Proof.
  induction a as [|x a IH]; [reflexivity|].
  intros H. rewrite free_of_cons in H. apply andb_true_iff in H as [Hx Ha].
  rewrite mem_single in Hx. simpl.
  destruct (Ascii.eqb x NUL); [discriminate|]. now rewrite IH.
Qed.

Lemma c_str_free a : free_of [NUL] a = true -> c_str a = a.
Proof.
  intros H. rewrite <- (app_nil_r a) at 1. rewrite c_str_app by assumption.
  simpl. apply app_nil_r.
Qed.

Lemma strcspn_stop a c b set :
  free_of set a = true -> mem c set = true -> strcspn (a ++ c :: b) set = length a.
Proof.
  intros Ha Hc. induction a as [|x a IH]; simpl.
  - now rewrite Hc.
  - simpl in Ha. apply andb_true_iff in Ha as [Hx Ha].
    destruct (mem x set); [discriminate|]. now rewrite IH.
Qed.

Lemma strcspn_all a set : free_of set a = true -> strcspn a set = length a.
Proof.
  induction a as [|x a IH]; simpl; [reflexivity|].
  intros Ha. apply andb_true_iff in Ha as [Hx Ha].
  destruct (mem x set); [discriminate|]. now rewrite IH.
Qed.

Lemma strspn_repeat c n b set :
  mem c set = true -> starts_with c b = false ->
  (forall x, mem x set = true -> x = c) ->
  strspn (repeat c n ++ b) set = n.
Proof.
  intros Hc Hb Hset. induction n as [|n IH]; simpl.
  - destruct b as [|x b]; simpl; [reflexivity|].
    destruct (mem x set) eqn:E; [|reflexivity].
    apply Hset in E. subst x. simpl in Hb. rewrite Ascii.eqb_refl in Hb. discriminate.
  - now rewrite Hc, IH.
Qed.

Lemma strspn_spaces n b :
  starts_with SP b = false -> strspn (repeat SP n ++ b) [SP] = n.
Proof.
  intros Hb. apply strspn_repeat; [reflexivity | assumption |].
  intros x Hx. rewrite mem_single in Hx. now apply Ascii.eqb_eq.
Qed.

Lemma skipn_app_exact {A} (a b : list A) : skipn (length a) (a ++ b) = b.
Proof. induction a; simpl; auto. Qed.

Lemma firstn_app_exact {A} (a b : list A) : firstn (length a) (a ++ b) = a.
Proof. induction a; simpl; [now destruct b | congruence]. Qed.

Lemma skipn_repeat_app {A} (c : A) n b : skipn n (repeat c n ++ b) = b.
Proof. induction n; simpl; auto. Qed.

Lemma starts_with_free c tok rest :
  tok <> [] -> free_of [c] tok = true -> starts_with c (tok ++ rest) = false.
Proof.
  destruct tok as [|x tok]; [congruence|]. intros _ H.
  rewrite free_of_cons in H.
  apply andb_true_iff in H as [Hx _]. rewrite mem_single in Hx.
  simpl. now destruct (Ascii.eqb x c).
Qed.

(** A token followed by a delimiter: [strtok_r] skips the spaces before it
    and leaves [saveptr] after the delimiter. *)
Lemma strtok_r_token n tok rest :
  tok <> [] -> free_of [SP] tok = true ->
  strtok_r (repeat SP n ++ tok ++ SP :: rest) [SP] = (Some tok, rest).
Proof.
  intros Hne Hfree. unfold strtok_r.
  rewrite strspn_spaces by now apply starts_with_free.
  rewrite skipn_repeat_app.
  destruct tok as [|x tok]; [congruence|].
  change ((x :: tok) ++ SP :: rest) with (x :: (tok ++ SP :: rest)).
  cbv zeta.
  change (x :: tok ++ SP :: rest) with ((x :: tok) ++ SP :: rest).
  rewrite strcspn_stop by (assumption || reflexivity).
  now rewrite firstn_app_exact, skipn_app_exact.
Qed.

(** The last token of a string. *)
Lemma strtok_r_last n tok :
  tok <> [] -> free_of [SP] tok = true ->
  strtok_r (repeat SP n ++ tok) [SP] = (Some tok, []).
Proof.
  intros Hne Hfree.
  assert (Hs : strspn (repeat SP n ++ tok) [SP] = n).
  { apply strspn_spaces. rewrite <- (app_nil_r tok). now apply starts_with_free. }
  unfold strtok_r. rewrite Hs, skipn_repeat_app.
  destruct tok as [|x tok]; [congruence|]. cbv zeta.
  rewrite strcspn_all by assumption.
  now rewrite firstn_all, skipn_all.
Qed.

(** ** Lines *)

Lemma split_line_line l rest :
  free_of [LF] l = true -> split_line (l ++ LF :: rest) = (l ++ [LF], rest).
Proof.
  induction l as [|x l IH]; [reflexivity|].
  intros H. rewrite free_of_cons in H. apply andb_true_iff in H as [Hx Hl].
  rewrite mem_single in Hx. simpl. destruct (Ascii.eqb x LF); [discriminate|].
  now rewrite IH.
Qed.

Lemma getline_line l rest f e :
  free_of [LF] l = true ->
  getline (mk_rd (l ++ LF :: rest) f e) = (Some (l ++ [LF]), mk_rd rest f e).
Proof.
  intros H. unfold getline. cbn [rd_pending rd_fault rd_errno].
  rewrite split_line_line by assumption.
  destruct l; reflexivity.
Qed.

Lemma getline_eof f e :
  getline (mk_rd [] f e) = (None, rd_exhaust (mk_rd [] f e)).
Proof. reflexivity. Qed.

(** ** Header lines *)

(** A header line made of a key without colon, a colon, [n] spaces and a
    value that does not start with a space and holds neither CR nor LF. *)
Lemma parse_header_line_header k n v :
  free_of [COLON; NUL] k = true ->
  free_of [CR; LF; NUL] v = true ->
  starts_with SP v = false ->
  parse_header_line (k ++ [COLON] ++ repeat SP n ++ v ++ CRLF)
  = HL_header (mk_header k v).
Proof.
  intros Hk Hv Hsp.
  assert (Hk0 : free_of [NUL] k = true)
    by (eapply free_of_incl; [|exact Hk]; intros x [<-|[]]; simpl; auto).
  assert (Hkc : free_of [COLON] k = true)
    by (eapply free_of_incl; [|exact Hk]; intros x [<-|[]]; simpl; auto).
  assert (Hv0 : free_of [NUL] v = true)
    by (eapply free_of_incl; [|exact Hv]; intros x [<-|[]]; simpl; auto).
  assert (Hvc : free_of CRLF v = true)
    by (eapply free_of_incl; [|exact Hv]; intros x [<-|[<-|[]]]; simpl; auto).
  set (after := repeat SP n ++ v ++ CRLF).
  unfold parse_header_line.
  rewrite c_str_free.
  2:{ unfold after. rewrite !free_of_app, Hk0, Hv0.
      rewrite free_of_repeat by reflexivity. reflexivity. }
  replace (strcmp0 (k ++ [COLON] ++ after) CRLF) with false.
  2:{ symmetry. apply bytes_eqb_neq. intros E.
      assert (Hin : In COLON (k ++ [COLON] ++ after))
        by (apply in_or_app; right; left; reflexivity).
      rewrite E in Hin. simpl in Hin.
      destruct Hin as [H|[H|[]]]; discriminate H. }
  change (k ++ [COLON] ++ after) with (k ++ COLON :: after).
  rewrite strcspn_stop by (assumption || reflexivity).
  rewrite skipn_app_exact. change (negb (Ascii.eqb COLON COLON)) with false.
  cbv iota. unfold strndup. rewrite firstn_app_exact.
  unfold after.
  assert (Hsp' : starts_with SP (v ++ CRLF) = false)
    by (destruct v; [reflexivity | exact Hsp]).
  rewrite strspn_spaces by assumption.
  rewrite skipn_repeat_app.
  change (v ++ CRLF) with (v ++ CR :: [LF]).
  rewrite strcspn_stop by (assumption || reflexivity).
  now rewrite firstn_app_exact.
Qed.


(** A line without colon that is not the empty line. *)
Lemma parse_header_line_no_colon line :
  free_of [NUL] line = true -> free_of [COLON] line = true -> line <> CRLF ->
  parse_header_line line = HL_malformed.
Proof.
  intros H0 Hc Hne. unfold parse_header_line.
  rewrite c_str_free by assumption.
  unfold strcmp0. rewrite bytes_eqb_neq by assumption.
  rewrite strcspn_all by assumption. now rewrite skipn_all.
Qed.

Lemma parse_header_line_end : parse_header_line CRLF = HL_end.
Proof. reflexivity. Qed.

(** ** The line buffer *)

Lemma getline_fits n len :
  (len <? n) = true ->
  getline_size n len = n /\ getline_reallocs n len = false.
Proof.
  intros H. apply Nat.ltb_lt in H. unfold getline_size, getline_reallocs.
  destruct (Nat.eqb_spec n 0) as [|_]; [lia|].
  replace (len + 1 <=? n) with true by (symmetry; apply Nat.leb_le; lia).
  split; [reflexivity|]. cbn [negb andb]. apply Nat.ltb_ge. lia.
Qed.

Lemma getline_size_first len :
  120 <= getline_size 0 len /\ len < getline_size 0 len.
Proof.
  unfold getline_size. cbn [Nat.eqb].
  destruct (Nat.leb_spec (len + 1) 120); lia.
Qed.

Lemma line_buffer_min first : 120 <= line_buffer first.
Proof. apply getline_size_first. Qed.


Lemma headers_fit_mono n n' hs :
  n <= n' -> headers_fit n hs = true -> headers_fit n' hs = true.
Proof.
  intros Hn H. unfold headers_fit in *. rewrite forallb_forall in *.
  intros h Hin. specialize (H h Hin). apply Nat.ltb_lt in H.
  apply Nat.ltb_lt. lia.
Qed.

Lemma headers_fit_app n hs hs' :
  headers_fit n (hs ++ hs') = headers_fit n hs && headers_fit n hs'.
Proof. apply forallb_app. Qed.

Lemma wire_header_line h rest f e n mv acc :
  wire_header h = true ->
  (length (header_text h) <? n) = true ->
  extract_header (mk_rd (header_text h ++ rest) f e) n mv acc
  = extract_header (mk_rd rest f e) n mv (acc ++ [h]).
Proof.
  destruct h as [k v]. unfold wire_header, wire_key, wire_value, header_text.
  cbn [key value]. intros H Hfit.
  apply andb_true_iff in H as [Hk H]. apply andb_true_iff in H as [Hv Hsp].
  apply negb_true_iff in Hsp.
  assert (Hk' : free_of [COLON; NUL] k = true)
    by (eapply free_of_incl; [|exact Hk]; intros x [<-|[<-|[]]]; simpl; auto).
  assert (Hkl : free_of [LF] k = true)
    by (eapply free_of_incl; [|exact Hk]; intros x [<-|[]]; simpl; auto).
  assert (Hvl : free_of [LF] v = true)
    by (eapply free_of_incl; [|exact Hv]; intros x [<-|[]]; simpl; auto).
  rewrite extract_header_eq.
  replace ((k ++ B ": " ++ v ++ CRLF) ++ rest)
    with ((k ++ B ": " ++ v ++ [CR]) ++ LF :: rest)
    by (rewrite <- !app_assoc; reflexivity).
  rewrite getline_line.
  2:{ rewrite !free_of_app, Hkl, Hvl. reflexivity. }
  replace ((k ++ B ": " ++ v ++ [CR]) ++ [LF])
    with (k ++ [COLON] ++ repeat SP 1 ++ v ++ CRLF)
    by (rewrite <- !app_assoc; reflexivity).
  rewrite parse_header_line_header by assumption.
  change (k ++ [COLON] ++ repeat SP 1 ++ v ++ CRLF)
    with (k ++ B ": " ++ v ++ CRLF).
  destruct (getline_fits _ _ Hfit) as [-> ->].
  now rewrite orb_false_r.
Qed.

Lemma extract_header_end rest f e n mv acc :
  3 <= n ->
  extract_header (mk_rd (CRLF ++ rest) f e) n mv acc
  = (Ok acc, mk_rd rest f e, mv).
Proof.
  intros Hn. rewrite extract_header_eq.
  change (CRLF ++ rest) with ([CR] ++ LF :: rest).
  rewrite getline_line by reflexivity.
  change (parse_header_line ([CR] ++ [LF])) with HL_end. cbv iota.
  assert (Hfit : (length ([CR] ++ [LF]) <? n) = true)
    by (apply Nat.ltb_lt; cbn [length app]; lia).
  destruct (getline_fits _ _ Hfit) as [_ ->].
  now rewrite orb_false_r.
Qed.

(** Decoding a block of well-formed headers closed by the empty line, when
    every line fits the buffer. *)
Lemma extract_header_wire hs : forall acc rest f e n mv,
  forallb wire_header hs = true ->
  headers_fit n hs = true -> 3 <= n ->
  extract_header (mk_rd (headers_text hs ++ CRLF ++ rest) f e) n mv acc
  = (Ok (acc ++ hs), mk_rd rest f e, mv).
Proof.
  induction hs as [|h hs IH]; intros acc rest f e n mv Hwf Hfit Hn.
  - cbn [headers_text map concat app]. rewrite extract_header_end by assumption.
    now rewrite app_nil_r.
  - cbn [forallb] in Hwf. apply andb_true_iff in Hwf as [Hh Hhs].
    unfold headers_fit in Hfit. cbn [forallb] in Hfit.
    apply andb_true_iff in Hfit as [Hf Hfs].
    unfold headers_text. cbn [map concat]. rewrite <- app_assoc.
    rewrite wire_header_line by assumption.
    fold (headers_text hs). rewrite IH by assumption.
    now rewrite <- app_assoc.
Qed.






(** ** The request line *)

Lemma method_string_token m :
  HTTP_METHOD_STRINGS m <> [] /\
  free_of [SP] (HTTP_METHOD_STRINGS m) = true /\
  free_of [LF] (HTTP_METHOD_STRINGS m) = true /\
  free_of [NUL] (HTTP_METHOD_STRINGS m) = true.
Proof. destruct m; repeat split; discriminate. Qed.

Lemma lookup_method_string m : lookup_method (HTTP_METHOD_STRINGS m) = Some m.
Proof. destruct m; reflexivity. Qed.

Lemma recv_req_head m p a b rest f e :
  wire_path p = true ->
  recv_req (mk_rd (spaced_request_line m p a b ++ rest) f e)
  = match extract_header (mk_rd rest f e)
            (line_buffer (spaced_request_line m p a b)) false [] with
    | (Err err, st2, released) => (after_headers released (Err err), st2)
    | (Ok hs, st2, released) =>
        (after_headers released (Ok (mk_req m p hs None)), st2)
    | (Fault, st2, _) => (Fault, st2)
    end.
Proof.
  intros Hp. unfold wire_path in Hp. apply andb_true_iff in Hp as [Hslash Hfree].
  destruct (method_string_token m) as (Mne & Msp & Mlf & Mnul).
  assert (Hpsp : free_of [SP] p = true)
    by (eapply free_of_incl; [|exact Hfree]; intros x [<-|[]]; simpl; auto).
  assert (Hplf : free_of [LF] p = true)
    by (eapply free_of_incl; [|exact Hfree]; intros x [<-|[]]; simpl; auto).
  assert (Hpnul : free_of [NUL] p = true)
    by (eapply free_of_incl; [|exact Hfree]; intros x [<-|[]]; simpl; auto).
  assert (Hpne : p <> []) by (destruct p; [discriminate | congruence]).
  set (M := HTTP_METHOD_STRINGS m) in *.
  set (proto := B "HTTP/1.1" ++ CRLF).
  set (l := M ++ repeat SP (S a) ++ p ++ repeat SP (S b) ++ B "HTTP/1.1" ++ [CR]).
  replace (spaced_request_line m p a b ++ rest) with (l ++ LF :: rest)
    by (unfold l, spaced_request_line; fold M; rewrite <- !app_assoc; reflexivity).
  assert (Hn : getline_size 0 (length (l ++ [LF]))
               = line_buffer (spaced_request_line m p a b)).
  { unfold line_buffer, l, spaced_request_line. fold M.
    do 2 f_equal. rewrite <- !app_assoc. reflexivity. }
  unfold recv_req. rewrite getline_line.
  2:{ unfold l. rewrite !free_of_app, Mlf, Hplf.
      rewrite !free_of_repeat by reflexivity. reflexivity. }
  cbv zeta. rewrite Hn. clear Hn.
  set (N := line_buffer _).
  rewrite c_str_free.
  2:{ unfold l. rewrite !free_of_app, Mnul, Hpnul.
      rewrite !free_of_repeat by reflexivity. reflexivity. }
  replace (l ++ [LF])
    with (repeat SP 0 ++ M ++ SP :: (repeat SP a ++ p ++ SP :: (repeat SP b ++ proto)))
    by (unfold l, proto; cbn [repeat]; rewrite <- !app_assoc; reflexivity).
  rewrite strtok_r_token by assumption.
  unfold M at 1. rewrite lookup_method_string.
  rewrite strtok_r_token by assumption.
  rewrite Hslash. cbn [negb].
  rewrite strtok_r_last by (unfold proto; (discriminate || reflexivity)).
  unfold proto, strcmp0. rewrite bytes_eqb_refl. cbn [negb]. reflexivity.
Qed.

(** ** Writing *)

Lemma fprintf_ok w s :
  fprintf (mk_os w false) s = (Z.of_nat (length s), mk_os (w ++ s) false).
Proof. reflexivity. Qed.

Lemma send_headers_ok hs : forall w,
  send_headers (mk_os w false) hs = (true, mk_os (w ++ headers_text hs) false).
Proof.
  induction hs as [|h hs IH]; intros w; cbn [send_headers].
  - unfold headers_text. cbn [map concat]. now rewrite app_nil_r.
  - rewrite fprintf_ok.
    replace (Z.of_nat _ <? 0)%Z with false by (symmetry; apply Z.ltb_ge; lia).
    rewrite IH. unfold headers_text, header_text. cbn [map concat].
    now rewrite <- app_assoc.
Qed.

Lemma measure_body_spec body : measure_body body = (remaining_length body, body).
Proof.
  destruct body as [data pos].
  unfold measure_body, remaining_length, ftell, fseek_set, fseek_end.
  cbn [f_data f_pos]. now rewrite Nat2Z.id.
Qed.

(** What the copy loop of [send_req] writes: one byte when at least 1024
    bytes remain in the body, nothing otherwise.  [fread] counts items of
    1024 bytes, so [read_ln] is 0 or 1, and [fwrite] then writes one item of
    [read_ln] bytes. *)
Lemma send_req_body_spec body o :
  send_req_body body o =
  if 1024 <=? length (f_remaining body) then
    if os_broken o then (false, o)
    else (true, mk_os (os_written o ++ firstn 1 (f_remaining body)) false)
  else (true, o).
Proof.
  rewrite send_req_body_eq. unfold fread. rewrite Nat.mul_1_r.
  set (rem := f_remaining body).
  destruct (1024 <=? length rem) eqn:Hlen.
  - apply Nat.leb_le in Hlen.
    assert (Hgot : length (firstn 1024 rem) = 1024)
      by (rewrite length_firstn; lia).
    rewrite Hgot, Nat.div_same by discriminate.
    unfold fwrite. rewrite Nat.mul_1_r. cbn [Nat.eqb].
    destruct (os_broken o); [reflexivity|].
    replace (firstn 1 (firstn 1024 rem)) with (firstn 1 rem)
      by (rewrite firstn_firstn; reflexivity).
    reflexivity.
  - apply Nat.leb_gt in Hlen.
    assert (Hgot : length (firstn 1024 rem) = length rem)
      by (rewrite length_firstn; lia).
    rewrite Hgot, Nat.div_small by assumption.
    reflexivity.
Qed.

(** The copy loop of [send_res] writes every remaining byte of the body. *)
Lemma send_res_body_spec body : forall w,
  send_res_body body (mk_os w false)
  = (true, mk_os (w ++ f_remaining body) false).
Proof.
  remember (length (f_remaining body)) as n eqn:Hn. revert body Hn.
  induction n as [n IH] using lt_wf_ind. intros body Hn w.
  rewrite send_res_body_eq.
  pose proof (fread_remaining 1 1024 body) as Hr.
  destruct (fread 1 1024 body) as [[got read_ln] body'].
  destruct Hr as (Hgot & Hread & Hrem).
  rewrite Nat.div_1_r in Hread. rewrite Nat.mul_1_l in Hgot.
  set (rem := f_remaining body) in *.
  assert (Hsplit : got ++ skipn 1024 rem = rem)
    by (subst got; apply firstn_skipn).
  assert (Hlen : length got = Nat.min 1024 (length rem))
    by (subst got; apply length_firstn).
  unfold fwrite. rewrite Nat.mul_1_l. cbn [os_broken os_written].
  destruct (read_ln =? 0) eqn:Hz.
  - apply Nat.eqb_eq in Hz. rewrite Hz.
    change (0 <? 0) with false. change (0 <? 1024) with true. cbv iota.
    assert (Hrem0 : rem = []) by (destruct rem; [reflexivity | simpl in *; lia]).
    now rewrite Hrem0, app_nil_r.
  - apply Nat.eqb_neq in Hz. rewrite Nat.ltb_irrefl.
    replace (firstn read_ln got) with got
      by (subst read_ln; now rewrite firstn_all).
    destruct (read_ln <? 1024) eqn:Hlast.
    + apply Nat.ltb_lt in Hlast.
      assert (Hall : skipn 1024 rem = []) by (apply skipn_all2; lia).
      rewrite Hall, app_nil_r in Hsplit. now rewrite Hsplit.
    + apply Nat.ltb_ge in Hlast.
      rewrite (IH (length (f_remaining body'))); [| | reflexivity].
      2:{ rewrite Hrem, length_skipn. lia. }
      rewrite Hrem, <- app_assoc.
      replace (length got) with 1024 by lia. now rewrite Hsplit.
Qed.

Lemma send_req_written w req :
  send_req (mk_os w false) req
  = (0%Z, mk_os (w ++ req_head_text req ++ req_body_sent req) false).
Proof.
  unfold send_req, req_head_text, req_body_sent.
  rewrite fprintf_ok.
  replace (Z.of_nat _ <? 0)%Z with false by (symmetry; apply Z.ltb_ge; lia).
  rewrite send_headers_ok.
  destruct (req_body req) as [body|].
  - rewrite measure_body_spec, !fprintf_ok. cbn [snd].
    rewrite fprintf_ok.
    replace (Z.of_nat _ <? 0)%Z with false by (symmetry; apply Z.ltb_ge; lia).
    rewrite send_req_body_spec. cbn [os_broken os_written].
    destruct (1024 <=? length (f_remaining body)); cbn [negb fflush os_broken];
      change (0 =? EOF)%Z with false; cbv iota;
      repeat rewrite <- app_assoc; rewrite ?app_nil_r; reflexivity.
  - rewrite fprintf_ok.
    replace (Z.of_nat _ <? 0)%Z with false by (symmetry; apply Z.ltb_ge; lia).
    cbn [negb fflush os_broken]. change (0 =? EOF)%Z with false. cbv iota.
    repeat rewrite <- app_assoc. rewrite ?app_nil_r. reflexivity.
Qed.

Lemma send_res_written d w res :
  send_res (Some d) (mk_os w false) res
  = (0%Z, mk_os (w ++ res_text d res) false).
Proof.
  unfold send_res, res_text.
  rewrite fprintf_ok.
  replace (Z.of_nat _ <? 0)%Z with false by (symmetry; apply Z.ltb_ge; lia).
  rewrite send_headers_ok.
  destruct (res_body res) as [body|].
  - rewrite measure_body_spec, fprintf_ok.
    replace (Z.of_nat _ <? 0)%Z with false by (symmetry; apply Z.ltb_ge; lia).
    rewrite send_res_body_spec.
    cbn [negb fflush os_broken]. change (0 =? EOF)%Z with false. cbv iota.
    repeat rewrite <- app_assoc. reflexivity.
  - rewrite fprintf_ok.
    replace (Z.of_nat _ <? 0)%Z with false by (symmetry; apply Z.ltb_ge; lia).
    cbn [negb fflush os_broken]. change (0 =? EOF)%Z with false. cbv iota.
    repeat rewrite <- app_assoc. rewrite ?app_nil_r. reflexivity.
Qed.

(** ** Encoding a request and decoding it again *)

Lemma request_line_spaced req :
  starts_with_slash (req_path req) = true ->
  request_line req = spaced_request_line (req_method req) (req_path req) 0 0.
Proof.
  unfold request_line, spaced_request_line, path_after_slash, starts_with_slash.
  destruct (req_path req) as [|c t]; [discriminate|].
  intros H. rewrite H. apply Ascii.eqb_eq in H. subst c. reflexivity.
Qed.

(** C1, as amended: for every request without body whose path starts with
    a slash and holds no space or LF, whose header keys hold no colon, CR or
    LF, whose header values hold no CR or LF and do not start with a space,
    and whose header lines each fit, with their NUL, in the line buffer the
    request line leaves (120 bytes, or more for a longer request line),
    [send_req] followed by [recv_req] on the bytes written succeeds and
    yields the same method, the same path, and the headers of the request
    followed by the header [Connection: close] that [send_req] adds; nothing
    is left in the stream. *)
Theorem send_recv_req_roundtrip (req : http_req) (e : Z) :
  wire_path (req_path req) = true ->
  forallb wire_header (req_header req) = true ->
  headers_fit (line_buffer (request_line req)) (req_header req) = true ->
  req_body req = None ->
  fst (send_req os_empty req) = 0%Z /\
  recv_req (rd_of (os_written (snd (send_req os_empty req))) e)
  = (Ok (mk_req (req_method req) (req_path req)
                (req_header req ++ [connection_close]) None),
     rd_of [] e).
Proof.
  intros Hp Hh Hfit Hb. unfold os_empty. rewrite send_req_written.
  split; [reflexivity|]. cbn [fst snd os_written app].
  unfold req_head_text, req_body_sent. rewrite Hb, app_nil_r.
  assert (Hslash : starts_with_slash (req_path req) = true)
    by (unfold wire_path in Hp; now apply andb_true_iff in Hp as [? _]).
  rewrite request_line_spaced in * by assumption.
  unfold rd_of. rewrite recv_req_head by assumption.
  replace (headers_text (req_header req) ++ [] ++ B "Connection: close" ++ CRLF ++ CRLF)
    with (headers_text (req_header req ++ [connection_close]) ++ CRLF ++ [])
    by (unfold headers_text; rewrite map_app, concat_app; cbn;
        rewrite <- ?app_assoc; reflexivity).
  pose proof (line_buffer_min
                (spaced_request_line (req_method req) (req_path req) 0 0)) as Hmin.
  rewrite extract_header_wire.
  - reflexivity.
  - rewrite forallb_app, Hh. reflexivity.
  - rewrite headers_fit_app, Hfit. unfold headers_fit. cbn [forallb andb].
    rewrite andb_true_r. apply Nat.ltb_lt.
    change (length (header_text connection_close)) with 19. lia.
  - lia.
Qed.

Lemma send_recv_req_roundtrip_witness :
  fst (send_req os_empty host_req) = 0%Z /\
  recv_req (rd_of (os_written (snd (send_req os_empty host_req))) 0)
  = (Ok (mk_req HTTP_GET (B "/a/b")
                [mk_header (B "Host") (B "example.com"); connection_close] None),
     rd_of [] 0).
Proof.
  apply (send_recv_req_roundtrip host_req 0); reflexivity.
Defined.

(** C1, as stated, fails on a request that meets its conditions: the
    decoded header sequence is one header longer than the encoded one. *)
Lemma roundtrip_headers_differ :
  starts_with_slash (req_path host_req) = true /\
  forallb wire_header (req_header host_req) = true /\
  req_body host_req = None /\
  ~ roundtrip_as_specified host_req.
Proof.
  repeat split. intros (r & st & Hrecv & _ & _ & Hhdr).
  assert (Hdec : recv_req (rd_of (os_written (snd (send_req os_empty host_req))) 0)
                 = (Ok (mk_req HTTP_GET (B "/a/b")
                               [mk_header (B "Host") (B "example.com");
                                connection_close] None),
                    rd_of [] 0)) by reflexivity.
  rewrite Hdec in Hrecv. inversion Hrecv; subst r. discriminate Hhdr.
Qed.

(** ** Spaces in the request line *)



(** ** The header loop, line by line *)

Lemma split_line_fst_lf s : forall a b,
  fst (split_line s) = a ++ LF :: b -> b = [].
Proof.
  induction s as [|c t IH]; intros a b H; simpl in H.
  - destruct a; discriminate.
  - destruct (Ascii.eqb c LF) eqn:E.
    + simpl in H. destruct a as [|x [|y a]]; inversion H; reflexivity.
    + destruct (split_line t) as [l r]. simpl in *.
      destruct a as [|x a]; inversion H; subst.
      * vm_compute in E. discriminate.
      * eapply IH. reflexivity.
Qed.

Lemma getline_fst_lf st line st' a b :
  getline st = (Some line, st') -> line = a ++ LF :: b -> b = [].
Proof.
  unfold getline. destruct (rd_pending st) as [|c t]; [discriminate|].
  pose proof (split_line_fst_lf (c :: t) a b) as H.
  destruct (split_line (c :: t)) as [l r]. cbn [fst] in H.
  intros E; inversion E; subst. exact H.
Qed.

Lemma c_str_crlf line : c_str line = CRLF -> exists b, line = [CR] ++ LF :: b.
Proof.
  destruct line as [|x [|y b]]; simpl.
  - discriminate.
  - destruct (Ascii.eqb x NUL); discriminate.
  - destruct (Ascii.eqb x NUL); [discriminate|].
    destruct (Ascii.eqb y NUL); [discriminate|].
    intros H. inversion H; subst. now exists b.
Qed.

Lemma free_of_c_str set s : free_of set s = true -> free_of set (c_str s) = true.
Proof.
  induction s as [|x s IH]; [reflexivity|].
  rewrite free_of_cons. intros H. apply andb_true_iff in H as [Hx Hs].
  simpl. destruct (Ascii.eqb x NUL); [reflexivity|].
  rewrite free_of_cons, Hx. now apply IH.
Qed.

Lemma parse_header_line_malformed st line st' :
  getline st = (Some line, st') ->
  free_of [COLON] line = true -> line <> CRLF ->
  parse_header_line line = HL_malformed.
Proof.
  intros Hline Hc Hne. unfold parse_header_line.
  replace (strcmp0 (c_str line) CRLF) with false.
  - rewrite strcspn_all by now apply free_of_c_str. now rewrite skipn_all.
  - symmetry. apply bytes_eqb_neq. intros E.
    apply c_str_crlf in E as [b E].
    pose proof (getline_fst_lf _ _ _ _ _ Hline E). subst b. now subst line.
Qed.




(** ** End of input *)

Lemma extract_header_eof f e n mv acc :
  extract_header (mk_rd [] f e) n mv acc
  = (Err (if (rd_errno (rd_exhaust (mk_rd [] f e)) =? EOF)%Z
          then E_MALFORMED_HEADERS else E_FAILURE),
     rd_exhaust (mk_rd [] f e), mv).
Proof. rewrite extract_header_eq. reflexivity. Qed.

(** At the end of the input [errno] keeps the value it had, and no value
    the system gives it is [EOF]: the header loop answers with the code of a
    plain failure. *)
Lemma extract_header_end_of_input e n mv acc :
  e <> EOF ->
  extract_header (rd_of [] e) n mv acc = (Err E_FAILURE, rd_of [] e, mv).
Proof.
  intros He. unfold rd_of. rewrite extract_header_eof.
  unfold rd_exhaust. cbn [rd_errno rd_fault rd_pending].
  apply Z.eqb_neq in He. now rewrite He.
Qed.

(** C7 (the code departs from it): when the stream ends inside the header
    block, [recv_req] returns -1, the code of a plain failure, not -3. *)
Theorem eof_in_headers_is_plain_failure :
  recv_req (rd_of truncated_request 0) = (Err E_FAILURE, rd_of [] 0)
  /\ E_FAILURE <> E_MALFORMED_HEADERS /\ E_FAILURE <> E_MALFORMED_HEAD.
Proof.
  split; [|split; discriminate].
  assert (Hp : wire_path (B "/") = true) by reflexivity.
  pose proof (recv_req_head HTTP_GET (B "/") 0 0 (B "Host: x" ++ CRLF) None 0 Hp)
    as H.
  change (spaced_request_line HTTP_GET (B "/") 0 0 ++ B "Host: x" ++ CRLF)
    with truncated_request in H.
  unfold rd_of. rewrite H.
  change (B "Host: x" ++ CRLF)
    with (header_text (mk_header (B "Host") (B "x")) ++ []).
  rewrite wire_header_line by reflexivity.
  fold (rd_of [] 0). rewrite extract_header_end_of_input by discriminate.
  reflexivity.
Qed.

(** ** A connection closed before any data *)

Lemma recv_req_eof f e :
  recv_req (mk_rd [] f e)
  = (Err (if (rd_errno (rd_exhaust (mk_rd [] f e)) =? EOF)%Z
          then E_MALFORMED_HEAD else E_FAILURE),
     rd_exhaust (mk_rd [] f e)).
Proof. reflexivity. Qed.

(** C3, as amended: when the stream is closed before any data, [recv_req]
    fails with one of the codes http.h documents for other failures, -1 or
    -2, and has no code of its own for this case; the server then writes a
    message to standard error, opens no file, closes the connection and
    continues with the accept loop. *)
Theorem clean_close_is_logged (env : server_env) (e : Z) (o : out_stream) :
  exists c st,
    recv_req (rd_of [] e) = (Err c, st)
    /\ (c = E_FAILURE \/ c = E_MALFORMED_HEAD)
    /\ sv_stderr (serve_connection env (rd_of [] e) o) <> []
    /\ sv_opened (serve_connection env (rd_of [] e) o) = None
    /\ sv_closed (serve_connection env (rd_of [] e) o) = true
    /\ sv_next (serve_connection env (rd_of [] e) o) = Continue.
Proof.
  unfold serve_connection, rd_of. rewrite recv_req_eof.
  unfold rd_exhaust. cbn [rd_errno rd_fault rd_pending].
  destruct (e =? EOF)%Z.
  - eexists. eexists. split; [reflexivity|]. split; [now right|].
    change ((E_MALFORMED_HEAD =? -2)%Z || (E_MALFORMED_HEAD =? -3)%Z) with true.
    cbv iota.
    destruct (send_res (clock env) _ (plain_res 400 "Bad Request")) as [r o1].
    destruct (r =? -1)%Z; cbn; repeat split; discriminate.
  - eexists. eexists. split; [reflexivity|]. split; [now left|].
    cbn. repeat split; discriminate.
Qed.

(** C3, as stated, fails: on a connection closed before any data the
    server writes to standard error. *)
Lemma clean_close_logs_an_error :
  sv_stderr (serve_connection srv_env (rd_of [] 0) os_empty)
  = [Log_perror (B "Error while reading request")]
  /\ ~ clean_close_as_specified srv_env 0 os_empty.
Proof.
  split; [reflexivity|].
  intros (c & st & _ & _ & _ & Hlog & _). discriminate Hlog.
Qed.

(** ** The body of a request *)

(** Whatever the body, [send_req] writes at most one byte of it. *)
Lemma send_req_body_at_most_one_byte w req :
  exists sent,
    send_req (mk_os w false) req = (0%Z, mk_os (w ++ req_head_text req ++ sent) false)
    /\ length sent <= 1.
Proof.
  exists (req_body_sent req). split; [apply send_req_written|].
  unfold req_body_sent. destruct (req_body req) as [body|]; [|simpl; lia].
  destruct (1024 <=? length (f_remaining body)); [|simpl; lia].
  rewrite length_firstn. lia.
Qed.

(** C2 (the code departs from it): for a body of five bytes [send_req]
    announces [Content-Length: 5] and writes no byte after the blank line;
    for a body of 1025 bytes it announces 1025 and writes the first byte
    only.  Both calls return 0. *)
Theorem send_req_drops_body :
  send_req os_empty hello_req
  = (0%Z, mk_os (B "GET / HTTP/1.1" ++ CRLF ++ B "Content-Length: 5" ++ CRLF
                   ++ B "Connection: close" ++ CRLF ++ CRLF) false)
  /\ send_req os_empty long_req
     = (0%Z, mk_os (B "GET / HTTP/1.1" ++ CRLF ++ B "Content-Length: 1025" ++ CRLF
                      ++ B "Connection: close" ++ CRLF ++ CRLF ++ B "a") false).
Proof.
  unfold os_empty. rewrite !send_req_written. split; reflexivity.
Qed.

(** ** The slash of the request line *)

Lemma path_after_slash_repeat k rest :
  starts_with_slash rest = false ->
  [SLASH] ++ path_after_slash (repeat SLASH k ++ rest)
  = repeat SLASH (Nat.max 1 k) ++ rest.
Proof.
  intros H. destruct k as [|k].
  - cbn [repeat app Nat.max]. unfold path_after_slash.
    destruct rest as [|c t]; [reflexivity|]. simpl in H. now rewrite H.
  - reflexivity.
Qed.

(** C4, as amended: [send_req] removes at most one leading slash from the
    path before writing its own: a path with [k] leading slashes is written
    with one slash when [k] is 0 or 1 and with [k] slashes otherwise, and
    this line opens what [send_req] writes. *)
Theorem request_line_slashes (m : http_method) (k : nat) (rest : bytes)
    (hs : list http_header) (body : option file) (w : bytes) :
  starts_with_slash rest = false ->
  let req := mk_req m (repeat SLASH k ++ rest) hs body in
  request_line req
  = HTTP_METHOD_STRINGS m ++ [SP] ++ repeat SLASH (Nat.max 1 k) ++ rest
      ++ B " HTTP/1.1" ++ CRLF
  /\ exists tail,
       send_req (mk_os w false) req
       = (0%Z, mk_os (w ++ request_line req ++ tail) false).
Proof.
  intros Hrest req. split.
  - unfold request_line, req. cbn [req_method req_path].
    rewrite (app_assoc (repeat SLASH (Nat.max 1 k)) rest).
    rewrite <- (path_after_slash_repeat k rest Hrest).
    rewrite <- !app_assoc. reflexivity.
  - rewrite send_req_written. unfold req_head_text.
    eexists. rewrite <- !app_assoc. reflexivity.
Qed.

Lemma request_line_slashes_witness :
  request_line (mk_req HTTP_GET (B "/a/b") [] None) = B "GET /a/b HTTP/1.1" ++ CRLF
  /\ request_line (mk_req HTTP_GET (B "a/b") [] None) = B "GET /a/b HTTP/1.1" ++ CRLF
  /\ request_line (mk_req HTTP_GET (B "//a/b") [] None) = B "GET //a/b HTTP/1.1" ++ CRLF.
Proof.
  split; [|split].
  - exact (proj1 (request_line_slashes HTTP_GET 1 (B "a/b") [] None [] eq_refl)).
  - exact (proj1 (request_line_slashes HTTP_GET 0 (B "a/b") [] None [] eq_refl)).
  - exact (proj1 (request_line_slashes HTTP_GET 2 (B "a/b") [] None [] eq_refl)).
Defined.

(** C4, as stated, fails: a path with two leading slashes is written with
    two slashes. *)
Lemma double_slash_is_kept :
  send_req os_empty (mk_req HTTP_GET (B "//a/b") [] None)
  = (0%Z, mk_os (B "GET //a/b HTTP/1.1" ++ CRLF
                   ++ B "Connection: close" ++ CRLF ++ CRLF) false)
  /\ request_line (mk_req HTTP_GET (B "//a/b") [] None)
     <> request_line_as_specified (mk_req HTTP_GET (B "//a/b") [] None).
Proof.
  split; [reflexivity | discriminate].
Qed.

(** ** The status line *)

Lemma last_app_ne {A} (l1 l2 : list A) d :
  l2 <> [] -> last (l1 ++ l2) d = last l2 d.
Proof.
  intros H. induction l1 as [|x l1 IH]; [reflexivity|].
  cbn [app]. destruct (l1 ++ l2) eqn:E.
  - apply app_eq_nil in E as [_ E]. contradiction.
  - rewrite <- E, <- IH. rewrite E. reflexivity.
Qed.

Lemma last_skipn {A} n (l : list A) d :
  skipn n l <> [] -> last (skipn n l) d = last l d.
Proof.
  intros H. rewrite <- (firstn_skipn n l) at 2. now rewrite last_app_ne.
Qed.

Lemma strtol_digits_endptr s : forall acc,
  s <> [] -> digit_val (last s NUL) = None -> snd (strtol_digits s acc) <> [].
Proof.
  induction s as [|c t IH]; intros acc Hne Hlast; [congruence|].
  cbn [strtol_digits]. destruct (digit_val c) eqn:Hc; [|discriminate].
  destruct t as [|c' t'].
  - cbn [last] in Hlast. congruence.
  - apply IH; [discriminate | exact Hlast].
Qed.

(** When the string does not end with a digit, [strtol] leaves [endptr]
    before the end of the string. *)
Lemma strtol_endptr nptr :
  nptr <> [] -> digit_val (last nptr NUL) = None -> snd (strtol nptr) <> [].
Proof.
  intros Hne Hlast. unfold strtol.
  set (n := strspn nptr [SP; HT; LF; VT; FF; CR]).
  destruct (skipn n nptr) as [|c t] eqn:Hs; [exact Hne|].
  assert (Hls : last (c :: t) NUL = last nptr NUL)
    by (rewrite <- Hs; apply last_skipn; rewrite Hs; discriminate).
  assert (Hdigits : forall s1, s1 <> [] -> last s1 NUL = last nptr NUL ->
            forall neg : bool,
              snd (let (v, rest) := strtol_digits s1 0 in
                   (clamp_long (if neg then (- v)%Z else v), rest)) <> []).
  { intros s1 H1 Hl neg.
    pose proof (strtol_digits_endptr s1 0%Z H1) as H. rewrite Hl in H.
    specialize (H Hlast). now destruct (strtol_digits s1 0). }
  assert (Hsign : forall neg : bool,
            snd match t with
                | [] => (0%Z, nptr)
                | c0 :: _ =>
                    match digit_val c0 with
                    | Some _ =>
                        let (v, rest) := strtol_digits t 0 in
                        (clamp_long (if neg then (- v)%Z else v), rest)
                    | None => (0%Z, nptr)
                    end
                end <> []).
  { intros neg. destruct t as [|c0 t0]; [exact Hne|].
    destruct (digit_val c0); [|exact Hne].
    apply Hdigits; [discriminate | exact Hls]. }
  destruct (Ascii.eqb c "-"%char); [exact (Hsign true)|].
  destruct (Ascii.eqb c "+"%char); [exact (Hsign false)|].
  cbv beta iota. destruct (digit_val c); [|exact Hne].
  refine (Hdigits (c :: t) _ Hls false). discriminate.
Qed.

(** A status line with a description: the response is accepted exactly
    when [strtol] consumes the whole code token. *)
Lemma recv_res_status_line tok descr rest f e :
  tok <> [] ->
  free_of [SP; LF; NUL] tok = true ->
  free_of [CR; LF; NUL] descr = true ->
  recv_res (mk_rd (B "HTTP/1.1 " ++ tok ++ [SP] ++ descr ++ CRLF ++ rest) f e)
  = match snd (strtol tok) with
    | _ :: _ => (Err E_MALFORMED_HEAD, mk_rd rest f e)
    | [] =>
        match extract_header (mk_rd rest f e)
                (line_buffer (B "HTTP/1.1 " ++ tok ++ [SP] ++ descr ++ CRLF))
                false [] with
        | (Err err, st2, released) => (after_headers released (Err err), st2)
        | (Ok hs, st2, released) =>
            (after_headers released
               (Ok (mk_res (mk_status (fst (strtol tok)) descr) hs None)), st2)
        | (Fault, st2, _) => (Fault, st2)
        end
    end.
Proof.
  intros Hne Htok Hdescr.
  assert (Htsp : free_of [SP] tok = true)
    by (eapply free_of_incl; [|exact Htok]; intros x [<-|[]]; simpl; auto).
  assert (Htlf : free_of [LF] tok = true)
    by (eapply free_of_incl; [|exact Htok]; intros x [<-|[]]; simpl; auto).
  assert (Htnul : free_of [NUL] tok = true)
    by (eapply free_of_incl; [|exact Htok]; intros x [<-|[]]; simpl; auto).
  assert (Hdlf : free_of [LF] descr = true)
    by (eapply free_of_incl; [|exact Hdescr]; intros x [<-|[]]; simpl; auto).
  assert (Hdnul : free_of [NUL] descr = true)
    by (eapply free_of_incl; [|exact Hdescr]; intros x [<-|[]]; simpl; auto).
  assert (Hdc : free_of CRLF descr = true)
    by (eapply free_of_incl; [|exact Hdescr]; intros x [<-|[<-|[]]]; simpl; auto).
  set (l := B "HTTP/1.1" ++ [SP] ++ tok ++ [SP] ++ descr ++ [CR]).
  replace (B "HTTP/1.1 " ++ tok ++ [SP] ++ descr ++ CRLF ++ rest)
    with (l ++ LF :: rest)
    by (unfold l; rewrite <- !app_assoc; reflexivity).
  assert (Hn : getline_size 0 (length (l ++ [LF]))
               = line_buffer (B "HTTP/1.1 " ++ tok ++ [SP] ++ descr ++ CRLF)).
  { unfold line_buffer, l. do 2 f_equal. rewrite <- !app_assoc. reflexivity. }
  unfold recv_res. rewrite getline_line.
  2:{ unfold l. rewrite !free_of_app, Htlf, Hdlf. reflexivity. }
  cbv zeta. rewrite Hn. clear Hn. set (N := line_buffer _).
  rewrite c_str_free.
  2:{ unfold l. rewrite !free_of_app, Htnul, Hdnul. reflexivity. }
  replace (l ++ [LF])
    with (repeat SP 0 ++ B "HTTP/1.1" ++ SP :: (repeat SP 0 ++ tok ++ SP :: (descr ++ CRLF)))
    by (unfold l; cbn [repeat]; rewrite <- !app_assoc; reflexivity).
  rewrite strtok_r_token by (discriminate || reflexivity).
  unfold strcmp0 at 1. rewrite bytes_eqb_refl. cbn [negb].
  rewrite strtok_r_token by assumption.
  destruct (strtol tok) as [status endptr]. cbn [fst snd].
  destruct endptr; [|reflexivity].
  replace (match descr ++ CRLF with
           | [] => []
           | _ :: _ => strndup (descr ++ CRLF) (strcspn (descr ++ CRLF) CRLF)
           end) with descr; [reflexivity|].
  change (descr ++ CRLF) with (descr ++ CR :: [LF]).
  rewrite strcspn_stop by (assumption || reflexivity).
  unfold strndup. rewrite firstn_app_exact. now destruct descr.
Qed.

(** A status line that ends right after the code: whatever the code, the
    response is rejected. *)
Lemma recv_res_bare_status tok rest f e :
  free_of [SP; LF; NUL] tok = true ->
  recv_res (mk_rd (B "HTTP/1.1 " ++ tok ++ CRLF ++ rest) f e)
  = (Err E_MALFORMED_HEAD, mk_rd rest f e).
Proof.
  intros Htok.
  assert (Htsp : free_of [SP] tok = true)
    by (eapply free_of_incl; [|exact Htok]; intros x [<-|[]]; simpl; auto).
  assert (Htlf : free_of [LF] tok = true)
    by (eapply free_of_incl; [|exact Htok]; intros x [<-|[]]; simpl; auto).
  assert (Htnul : free_of [NUL] tok = true)
    by (eapply free_of_incl; [|exact Htok]; intros x [<-|[]]; simpl; auto).
  set (l := B "HTTP/1.1" ++ [SP] ++ tok ++ [CR]).
  replace (B "HTTP/1.1 " ++ tok ++ CRLF ++ rest) with (l ++ LF :: rest)
    by (unfold l; rewrite <- !app_assoc; reflexivity).
  unfold recv_res. rewrite getline_line.
  2:{ unfold l. rewrite !free_of_app, Htlf. reflexivity. }
  cbv zeta. set (N := getline_size 0 _).
  rewrite c_str_free.
  2:{ unfold l. rewrite !free_of_app, Htnul. reflexivity. }
  replace (l ++ [LF])
    with (repeat SP 0 ++ B "HTTP/1.1" ++ SP :: (repeat SP 0 ++ (tok ++ CRLF)))
    by (unfold l; cbn [repeat]; rewrite <- !app_assoc; reflexivity).
  rewrite strtok_r_token by (discriminate || reflexivity).
  unfold strcmp0 at 1. rewrite bytes_eqb_refl. cbn [negb].
  rewrite strtok_r_last.
  2:{ destruct tok; discriminate. }
  2:{ rewrite free_of_app, Htsp. reflexivity. }
  pose proof (strtol_endptr (tok ++ CRLF)) as Hend.
  destruct (strtol (tok ++ CRLF)) as [status endptr]. cbn [snd] in Hend.
  destruct endptr; [|reflexivity].
  exfalso. apply Hend; [destruct tok; discriminate | | reflexivity].
  rewrite last_app_ne by discriminate. reflexivity.
Qed.

(** C5 (the code departs from it): the status line [HTTP/1.1 200 CR LF],
    without description, is rejected as a malformed head, since the token
    given to [strtol] still holds the line terminator; with a space after
    the code the description is empty and the response is accepted. *)
Theorem recv_res_rejects_bare_status :
  recv_res (rd_of (B "HTTP/1.1 200" ++ CRLF ++ CRLF) 0)
  = (Err E_MALFORMED_HEAD, rd_of CRLF 0)
  /\ recv_res (rd_of (B "HTTP/1.1 200 " ++ CRLF ++ CRLF) 0)
     = (Ok (mk_res (mk_status 200 []) [] None), rd_of [] 0).
Proof.
  split; reflexivity.
Qed.

(** ** The server and methods other than GET *)


Lemma resolve_path_of_request env path :
  starts_with_slash path = true ->
  resolve_path env path
  = doc_root env ++ path
      ++ (if Ascii.eqb (last path NUL) SLASH then index env else []).
Proof.
  unfold resolve_path. destruct path as [|c t]; [discriminate|]. intros _.
  destruct (Ascii.eqb (last (c :: t) NUL) SLASH); [reflexivity|].
  now rewrite app_nil_r.
Qed.




(** ** The exit status of the client *)

(** C9: once the request is sent, the client exits with status 2 when
    [recv_res] reports a malformed head or malformed headers; and when the
    response is decoded with a status code other than 200, it prints the
    code, a space, the description and a newline on standard error, writes
    nothing to the output, and exits with status 3. *)
Theorem client_exit_codes (host path w : bytes) (reply : rd_state)
    (sink : out_stream) :
  let r := client_exchange host path (mk_os w false) reply sink in
  (forall c st,
      recv_res reply = (Err c, st) ->
      c = E_MALFORMED_HEAD \/ c = E_MALFORMED_HEADERS ->
      cl_exit r = 2%Z /\ cl_sink r = sink)
  /\ (forall res st,
        recv_res reply = (Ok res, st) ->
        code (status_code res) <> 200%Z ->
        cl_exit r = 3%Z
        /\ cl_stderr r
           = [Log_fprintf (print_long (code (status_code res)) ++ [SP]
                             ++ description (status_code res) ++ [LF])]
        /\ cl_sink r = sink).
Proof.
  intros r. subst r. unfold client_exchange. rewrite send_req_written.
  change (0 =? -1)%Z with false. cbv iota. split.
  - intros c st Hrecv Hc. rewrite Hrecv.
    destruct Hc as [-> | ->]; split; reflexivity.
  - intros res st Hrecv Hcode. rewrite Hrecv.
    apply Z.eqb_neq in Hcode. rewrite Hcode. cbn [negb].
    repeat split.
Qed.

Lemma client_exit_codes_witness :
  (let r := client_exchange (B "example.com") (B "/missing") os_empty
              (rd_of (B "HTTP/1.1 404 Not Found" ++ CRLF ++ CRLF ++ B "gone") 0)
              os_empty in
   cl_exit r = 3%Z
   /\ cl_stderr r = [Log_fprintf (B "404 Not Found" ++ [LF])]
   /\ cl_sink r = os_empty)
  /\ (let r := client_exchange (B "example.com") (B "/") os_empty
                 (rd_of (B "HTTP/1.1 200 OK" ++ CRLF ++ B "garbage" ++ CRLF) 0)
                 os_empty in
      cl_exit r = 2%Z /\ cl_sink r = os_empty).
Proof.
  split.
  - assert (Hcode : 404%Z <> 200%Z) by discriminate.
    exact (proj2 (client_exit_codes (B "example.com") (B "/missing") []
                    (rd_of (B "HTTP/1.1 404 Not Found" ++ CRLF ++ CRLF ++ B "gone") 0)
                    os_empty)
                 (mk_res (mk_status 404 (B "Not Found")) [] None)
                 (rd_of (B "gone") 0) eq_refl Hcode).
  - exact (proj1 (client_exit_codes (B "example.com") (B "/") []
                    (rd_of (B "HTTP/1.1 200 OK" ++ CRLF ++ B "garbage" ++ CRLF) 0)
                    os_empty)
                 E_MALFORMED_HEADERS (rd_of [] 0) eq_refl (or_intror eq_refl)).
Defined.

(** * Further properties of the code *)

(** ** [printf("%ld")] and [strtol] *)

Lemma digit_char c :
  is_digit c = true ->
  mem c [SP; HT; LF; VT; FF; CR; NUL; COLON; "-"%char; "+"%char] = false.
Proof.
  destruct c as [[] [] [] [] [] [] [] []]; intros H;
    try discriminate H; reflexivity.
Qed.

Lemma uint_text_digits u : forallb is_digit (uint_text u) = true.
Proof. induction u; cbn; auto. Qed.

Lemma uint_text_nonnil u : u <> Decimal.Nil -> uint_text u <> [].
Proof. destruct u; [congruence | discriminate..]. Qed.

Lemma strtol_digits_uint u : forall acc,
  strtol_digits (uint_text u) acc = (uint_val u acc, []).
Proof.
  unfold uint_text, B.
  induction u; intros acc;
    cbn [NilEmpty.string_of_uint list_ascii_of_string strtol_digits uint_val];
    [reflexivity | ..];
    match goal with
    | |- context [digit_val ?c] =>
        let v := eval vm_compute in (digit_val c) in
        change (digit_val c) with v
    end; cbv iota beta; apply IHu.
Qed.

Lemma uint_val_acc u : forall acc,
  Z.pos (Pos.of_uint_acc u acc) = uint_val u (Z.pos acc).
Proof.
  induction u; intros acc; cbn [Pos.of_uint_acc uint_val];
    [reflexivity | rewrite IHu; f_equal; lia ..].
Qed.

Lemma uint_val_0 u : Z.of_N (Pos.of_uint u) = uint_val u 0.
Proof.
  induction u; cbn [Pos.of_uint uint_val]; [reflexivity | exact IHu | ..];
    cbn [Z.of_N]; rewrite uint_val_acc; reflexivity.
Qed.

Lemma uint_val_to_uint p : uint_val (Pos.to_uint p) 0 = Z.pos p.
Proof. now rewrite <- uint_val_0, DecimalPos.Unsigned.of_to. Qed.

Lemma digit_not_space_or_sign c :
  is_digit c = true ->
  mem c [SP; HT; LF; VT; FF; CR] = false
  /\ Ascii.eqb c "-"%char = false /\ Ascii.eqb c "+"%char = false.
Proof.
  destruct c as [[] [] [] [] [] [] [] []]; intros H;
    try discriminate H; repeat split.
Qed.

Lemma free_of_digits l :
  forallb is_digit l = true ->
  free_of [SP; HT; LF; VT; FF; CR; NUL; COLON] l = true.
Proof.
  induction l as [|c l IH]; [reflexivity|]. cbn [forallb].
  intros H. apply andb_true_iff in H as [Hc Hl].
  rewrite free_of_cons, IH by assumption.
  apply digit_char in Hc.
  destruct (mem c [SP; HT; LF; VT; FF; CR; NUL; COLON]) eqn:E; [|reflexivity].
  apply mem_In in E.
  assert (Hin : In c [SP; HT; LF; VT; FF; CR; NUL; COLON; "-"%char; "+"%char])
    by (simpl in *; intuition).
  apply mem_In in Hin. congruence.
Qed.

Lemma print_long_pos p : print_long (Z.pos p) = uint_text (Pos.to_uint p).
Proof.
  unfold print_long, uint_text. cbn [Z.to_int NilZero.string_of_int].
  pose proof (DecimalPos.Unsigned.to_uint_nonnil p) as H.
  destruct (Pos.to_uint p); [congruence | reflexivity ..].
Qed.

Lemma print_long_neg p :
  print_long (Z.neg p) = "-"%char :: uint_text (Pos.to_uint p).
Proof.
  unfold print_long, uint_text. cbn [Z.to_int NilZero.string_of_int].
  pose proof (DecimalPos.Unsigned.to_uint_nonnil p) as H.
  destruct (Pos.to_uint p); [congruence | reflexivity ..].
Qed.

(** The text of a number holds no space, no line terminator and no colon,
    and is not empty. *)
Lemma print_long_text z :
  print_long z <> []
  /\ free_of [SP; HT; LF; VT; FF; CR; NUL; COLON] (print_long z) = true.
Proof.
  destruct z as [|p|p].
  - split; [discriminate | reflexivity].
  - rewrite print_long_pos. split.
    + apply uint_text_nonnil, DecimalPos.Unsigned.to_uint_nonnil.
    + apply free_of_digits, uint_text_digits.
  - rewrite print_long_neg. split; [discriminate|].
    rewrite free_of_cons, free_of_digits by apply uint_text_digits. reflexivity.
Qed.

Lemma strtol_uint_text u :
  u <> Decimal.Nil ->
  strtol (uint_text u) = (clamp_long (uint_val u 0), [])
  /\ strtol ("-"%char :: uint_text u) = (clamp_long (- uint_val u 0), []).
Proof.
  intros Hu. pose proof (uint_text_nonnil u Hu) as Hne.
  pose proof (uint_text_digits u) as Hd.
  pose proof (strtol_digits_uint u 0%Z) as Hval.
  destruct (uint_text u) as [|c t]; [congruence|].
  cbn [forallb] in Hd. apply andb_true_iff in Hd as [Hc _].
  destruct (digit_not_space_or_sign c Hc) as (Hws & Hminus & Hplus).
  assert (Hdv : exists d, digit_val c = Some d)
    by (unfold is_digit in Hc; destruct (digit_val c) as [d|]; [now exists d | discriminate]).
  destruct Hdv as [d Hdv].
  split; unfold strtol.
  - cbn [strspn]. rewrite Hws. cbn [skipn]. rewrite Hminus, Hplus, Hdv, Hval.
    reflexivity.
  - change (strspn ("-"%char :: c :: t) [SP; HT; LF; VT; FF; CR]) with 0.
    cbn [skipn]. rewrite Ascii.eqb_refl, Hdv, Hval. reflexivity.
Qed.

(** What [printf("%ld")] writes, [strtol] reads back, to the end of the
    text. *)
Lemma strtol_print_long z :
  (LONG_MIN <= z <= LONG_MAX)%Z -> strtol (print_long z) = (z, []).
Proof.
  intros Hz.
  assert (Hclamp : clamp_long z = z).
  { unfold clamp_long.
    destruct (z >? LONG_MAX)%Z eqn:E1; [apply Z.gtb_lt in E1; lia|].
    destruct (z <? LONG_MIN)%Z eqn:E2; [apply Z.ltb_lt in E2; lia|].
    reflexivity. }
  destruct z as [|p|p].
  - reflexivity.
  - rewrite print_long_pos.
    destruct (strtol_uint_text (Pos.to_uint p)
                (DecimalPos.Unsigned.to_uint_nonnil p)) as [H _].
    rewrite H, uint_val_to_uint. now rewrite Hclamp.
  - rewrite print_long_neg.
    destruct (strtol_uint_text (Pos.to_uint p)
                (DecimalPos.Unsigned.to_uint_nonnil p)) as [_ H].
    rewrite H, uint_val_to_uint. change (- Z.pos p)%Z with (Z.neg p).
    now rewrite Hclamp.
Qed.

(** ** Responses on the wire *)

Lemma res_text_split d res :
  res_text d res = res_head_text d res ++ body_bytes (res_body res).
Proof.
  unfold res_text, res_head_text, added_headers, headers_text, body_bytes,
    header_text, connection_close.
  rewrite map_app, concat_app. cbn [map concat key value].
  rewrite <- !app_assoc. cbn [app]. rewrite <- ?app_assoc. reflexivity.
Qed.

Lemma print_long_wire_value z : wire_value (print_long z) = true.
Proof.
  destruct (print_long_text z) as [Hne Hfree]. unfold wire_value.
  apply andb_true_iff. split.
  - eapply free_of_incl; [|exact Hfree].
    intros x [<-|[<-|[<-|[]]]]; simpl; auto 10.
  - apply negb_true_iff. rewrite <- (app_nil_r (print_long z)).
    apply starts_with_free; [assumption|].
    eapply free_of_incl; [|exact Hfree]. intros x [<-|[]]; simpl; auto.
Qed.

Lemma added_headers_wire d res :
  wire_value d = true -> forallb wire_header (added_headers d res) = true.
Proof.
  intros Hd. unfold added_headers. cbn [forallb].
  unfold wire_header at 1 2. cbn [key value].
  rewrite Hd, print_long_wire_value. reflexivity.
Qed.

(** The text of a response, decoded. *)
Lemma recv_res_res_text res d f e :
  (LONG_MIN <= code (status_code res) <= LONG_MAX)%Z ->
  free_of [CR; LF; NUL] (description (status_code res)) = true ->
  forallb wire_header (res_header res) = true ->
  wire_value d = true ->
  headers_fit (line_buffer (status_line res))
              (res_header res ++ added_headers d res) = true ->
  recv_res (mk_rd (res_text d res) f e)
  = (Ok (mk_res (status_code res)
                (res_header res ++ added_headers d res) None),
     mk_rd (body_bytes (res_body res)) f e).
Proof.
  intros Hcode Hdescr Hhs Hd Hfit.
  pose proof (line_buffer_min (status_line res)) as Hmin.
  rewrite res_text_split. unfold res_head_text, status_line in *.
  destruct (print_long_text (code (status_code res))) as [Hne Hfree].
  rewrite <- !app_assoc.
  rewrite recv_res_status_line; [| assumption | | assumption].
  2:{ eapply free_of_incl; [|exact Hfree].
      intros x [<-|[<-|[<-|[]]]]; simpl; auto 10. }
  rewrite strtol_print_long by assumption. cbn [fst snd].
  rewrite extract_header_wire.
  2:{ rewrite forallb_app, Hhs, added_headers_wire by assumption. reflexivity. }
  2:{ exact Hfit. }
  2:{ lia. }
  destruct (status_code res). reflexivity.
Qed.

(** Sending a response and receiving it again: when the description holds
    no CR or LF, the headers survive the wire, the date is a header value,
    and every header line written fits, with its NUL, in the line buffer
    the status line leaves, [send_res] succeeds and [recv_res] on the bytes
    written returns the same status code and description, then the headers
    of the response followed by the three [send_res] adds (Date,
    Content-Length, Connection), and leaves in the stream exactly the bytes
    of the body. *)
Theorem send_res_recv_res_roundtrip (res : http_res) (d : bytes)
    (f : option Z) (e : Z) :
  (LONG_MIN <= code (status_code res) <= LONG_MAX)%Z ->
  free_of [CR; LF; NUL] (description (status_code res)) = true ->
  forallb wire_header (res_header res) = true ->
  wire_value d = true ->
  headers_fit (line_buffer (status_line res))
              (res_header res ++ added_headers d res) = true ->
  fst (send_res (Some d) os_empty res) = 0%Z
  /\ recv_res (mk_rd (os_written (snd (send_res (Some d) os_empty res))) f e)
     = (Ok (mk_res (status_code res)
                   (res_header res ++ added_headers d res) None),
        mk_rd (body_bytes (res_body res)) f e).
Proof.
  intros Hcode Hdescr Hhs Hd Hfit. unfold os_empty. rewrite send_res_written.
  split; [reflexivity|]. cbn [snd os_written app].
  now apply recv_res_res_text.
Qed.

Lemma send_res_recv_res_roundtrip_witness :
  recv_res (rd_of (os_written (snd (send_res (Some (B "Mon, 02 Jan 2023 10:00:00 GMT"))
                                             os_empty
                                             (mk_res (mk_status 404 (B "Not Found"))
                                                     [] None)))) 0)
  = (Ok (mk_res (mk_status 404 (B "Not Found"))
                [mk_header (B "Date") (B "Mon, 02 Jan 2023 10:00:00 GMT");
                 mk_header (B "Content-Length") (B "0");
                 connection_close] None),
     rd_of [] 0).
Proof.
  assert (Hc : (LONG_MIN <= 404 <= LONG_MAX)%Z) by (unfold LONG_MIN, LONG_MAX; lia).
  exact (proj2 (send_res_recv_res_roundtrip
                  (mk_res (mk_status 404 (B "Not Found")) [] None)
                  (B "Mon, 02 Jan 2023 10:00:00 GMT") None 0
                  Hc eq_refl eq_refl eq_refl eq_refl)).
Defined.

Lemma remaining_length_bytes body :
  f_pos body <= length (f_data body) ->
  remaining_length body = Z.of_nat (length (f_remaining body)).
Proof.
  intros H. unfold remaining_length, f_remaining. rewrite length_skipn. lia.
Qed.

(** [send_res] announces what it sends: for a body positioned inside its
    file, the value of Content-Length is the number of bytes that remain in
    the body, and exactly these bytes follow the blank line; without body
    the value is 0 and nothing follows. *)
Theorem send_res_content_length (d w : bytes) (res : http_res) :
  (forall body, res_body res = Some body -> f_pos body <= length (f_data body)) ->
  send_res (Some d) (mk_os w false) res
  = (0%Z,
     mk_os (w ++ status_line res ++ headers_text (res_header res)
              ++ B "Date: " ++ d ++ CRLF
              ++ B "Content-Length: "
              ++ print_long (Z.of_nat (length (body_bytes (res_body res)))) ++ CRLF
              ++ B "Connection: close" ++ CRLF ++ CRLF
              ++ body_bytes (res_body res)) false).
Proof.
  intros Hpos. rewrite send_res_written. unfold res_text, body_bytes.
  destruct (res_body res) as [body|].
  - rewrite remaining_length_bytes by now apply Hpos. reflexivity.
  - reflexivity.
Qed.

Lemma send_res_content_length_witness :
  send_res (Some (B "now")) os_empty
           (mk_res (mk_status 200 (B "OK")) []
                   (Some (mk_file (repeat "a"%char 1500 ++ B "tail") 2)))
  = (0%Z,
     mk_os (B "HTTP/1.1 200 OK" ++ CRLF ++ B "Date: now" ++ CRLF
              ++ B "Content-Length: 1502" ++ CRLF
              ++ B "Connection: close" ++ CRLF ++ CRLF
              ++ repeat "a"%char 1498 ++ B "tail") false).
Proof.
  refine (send_res_content_length (B "now") []
            (mk_res (mk_status 200 (B "OK")) []
                    (Some (mk_file (repeat "a"%char 1500 ++ B "tail") 2))) _).
  intros body E. inversion E; subst body. vm_compute. lia.
Defined.

(** A stream that refuses writes: [send_req] and [send_res] return -1 and
    nothing is written, whatever the message. *)
Lemma send_on_broken_stream (w : bytes) (req : http_req) (res : http_res)
    (date : option bytes) :
  send_req (mk_os w true) req = ((-1)%Z, mk_os w true)
  /\ send_res date (mk_os w true) res = ((-1)%Z, mk_os w true).
Proof. split; reflexivity. Qed.

(** When [gmtime] fails, [send_res] returns -1 after the status line and
    the headers of the response have been written: the peer is left with a
    head that no blank line closes. *)
Theorem send_res_without_clock (w : bytes) (res : http_res) :
  send_res None (mk_os w false) res
  = ((-1)%Z, mk_os (w ++ status_line res ++ headers_text (res_header res)) false).
Proof.
  unfold send_res. rewrite fprintf_ok.
  replace (Z.of_nat _ <? 0)%Z with false by (symmetry; apply Z.ltb_ge; lia).
  rewrite send_headers_ok. now rewrite <- app_assoc.
Qed.

(** ** Decoding a request *)

(** [recv_req] reads the head and nothing else: on a request line with a
    known method and a path starting with a slash, followed by headers that
    survive the wire, each on a line that fits, with its NUL, in the line
    buffer the request line leaves, and the blank line, it returns the
    method, the path and the headers in their order, duplicates included,
    and leaves whatever follows the blank line unread. *)
Theorem recv_req_leaves_body (m : http_method) (p : bytes)
    (hs : list http_header) (body : bytes) (f : option Z) (e : Z) :
  wire_path p = true ->
  forallb wire_header hs = true ->
  headers_fit (line_buffer (HTTP_METHOD_STRINGS m ++ [SP] ++ p ++ [SP]
                              ++ B "HTTP/1.1" ++ CRLF)) hs = true ->
  recv_req (mk_rd (HTTP_METHOD_STRINGS m ++ [SP] ++ p ++ [SP] ++ B "HTTP/1.1" ++ CRLF
                     ++ headers_text hs ++ CRLF ++ body) f e)
  = (Ok (mk_req m p hs None), mk_rd body f e).
Proof.
  intros Hp Hhs Hfit.
  change (HTTP_METHOD_STRINGS m ++ [SP] ++ p ++ [SP] ++ B "HTTP/1.1" ++ CRLF)
    with (spaced_request_line m p 0 0) in Hfit.
  replace (HTTP_METHOD_STRINGS m ++ [SP] ++ p ++ [SP] ++ B "HTTP/1.1" ++ CRLF
             ++ headers_text hs ++ CRLF ++ body)
    with (spaced_request_line m p 0 0 ++ headers_text hs ++ CRLF ++ body)
    by (unfold spaced_request_line; cbn [repeat]; rewrite <- !app_assoc; reflexivity).
  rewrite recv_req_head by assumption.
  pose proof (line_buffer_min (spaced_request_line m p 0 0)) as Hmin.
  rewrite extract_header_wire by (assumption || lia). reflexivity.
Qed.

Lemma recv_req_leaves_body_witness :
  recv_req (rd_of (B "POST /form HTTP/1.1" ++ CRLF
                     ++ B "Accept: a" ++ CRLF ++ B "Accept: b" ++ CRLF ++ CRLF
                     ++ B "x=1") 0)
  = (Ok (mk_req HTTP_POST (B "/form")
                [mk_header (B "Accept") (B "a"); mk_header (B "Accept") (B "b")]
                None),
     rd_of (B "x=1") 0).
Proof.
  exact (recv_req_leaves_body HTTP_POST (B "/form")
           [mk_header (B "Accept") (B "a"); mk_header (B "Accept") (B "b")]
           (B "x=1") None 0 eq_refl eq_refl eq_refl).
Defined.

Lemma lookup_method_none tok :
  (forall m, tok <> HTTP_METHOD_STRINGS m) -> lookup_method tok = None.
Proof.
  intros H. unfold lookup_method, all_methods, strcmp0. cbn [find].
  rewrite !bytes_eqb_neq by apply H. reflexivity.
Qed.

(** The first line of a stream, when it is [l] followed by LF. *)
Lemma recv_req_first_line l rest f e :
  free_of [LF; NUL] l = true ->
  getline (mk_rd (l ++ LF :: rest) f e) = (Some (l ++ [LF]), mk_rd rest f e)
  /\ c_str (l ++ [LF]) = l ++ [LF].
Proof.
  intros H. split.
  - apply getline_line. eapply free_of_incl; [|exact H].
    intros x [<-|[]]; simpl; auto.
  - apply c_str_free. rewrite free_of_app. apply andb_true_iff. split.
    + eapply free_of_incl; [|exact H]. intros x [<-|[]]; simpl; auto.
    + reflexivity.
Qed.

(** A request line whose first word is not, letter for letter, one of the
    nine method names is a malformed head: [recv_req] returns -2 and has
    read that line only. *)
Theorem recv_req_unknown_method (tok tail rest : bytes) (f : option Z) (e : Z) :
  tok <> [] ->
  free_of [SP; LF; NUL] tok = true ->
  free_of [LF; NUL] tail = true ->
  (forall m, tok <> HTTP_METHOD_STRINGS m) ->
  recv_req (mk_rd (tok ++ [SP] ++ tail ++ LF :: rest) f e)
  = (Err E_MALFORMED_HEAD, mk_rd rest f e).
Proof.
  intros Hne Htok Htail Hm.
  assert (Hsp : free_of [SP] tok = true)
    by (eapply free_of_incl; [|exact Htok]; intros x [<-|[]]; simpl; auto).
  assert (Hl : free_of [LF; NUL] tok = true)
    by (eapply free_of_incl; [|exact Htok]; intros x [<-|[<-|[]]]; simpl; auto).
  replace (tok ++ [SP] ++ tail ++ LF :: rest)
    with ((tok ++ [SP] ++ tail) ++ LF :: rest)
    by (rewrite <- !app_assoc; reflexivity).
  destruct (recv_req_first_line (tok ++ [SP] ++ tail) rest f e) as [Hg Hc].
  { rewrite !free_of_app, Hl, Htail. reflexivity. }
  unfold recv_req. rewrite Hg, Hc.
  replace ((tok ++ [SP] ++ tail) ++ [LF])
    with (repeat SP 0 ++ tok ++ SP :: (tail ++ [LF]))
    by (cbn [repeat]; rewrite <- !app_assoc; reflexivity).
  rewrite strtok_r_token by assumption.
  now rewrite lookup_method_none.
Qed.

Lemma recv_req_unknown_method_witness :
  recv_req (rd_of (B "get / HTTP/1.1" ++ CRLF ++ CRLF) 0)
  = (Err E_MALFORMED_HEAD, rd_of CRLF 0).
Proof.
  refine (recv_req_unknown_method (B "get") (B "/ HTTP/1.1" ++ [CR]) CRLF None 0
            _ eq_refl eq_refl _).
  - discriminate.
  - intros m; destruct m; discriminate.
Defined.

(** A request target that does not start with a slash (an absolute URI, an
    asterisk) is a malformed head. *)
Theorem recv_req_target_without_slash (m : http_method) (p tail rest : bytes)
    (f : option Z) (e : Z) :
  p <> [] ->
  free_of [SP; LF; NUL] p = true ->
  starts_with_slash p = false ->
  free_of [LF; NUL] tail = true ->
  recv_req (mk_rd (HTTP_METHOD_STRINGS m ++ [SP] ++ p ++ [SP] ++ tail ++ LF :: rest) f e)
  = (Err E_MALFORMED_HEAD, mk_rd rest f e).
Proof.
  intros Hne Hp Hslash Htail.
  destruct (method_string_token m) as (Mne & Msp & Mlf & Mnul).
  assert (Hsp : free_of [SP] p = true)
    by (eapply free_of_incl; [|exact Hp]; intros x [<-|[]]; simpl; auto).
  assert (Hl : free_of [LF; NUL] p = true)
    by (eapply free_of_incl; [|exact Hp]; intros x [<-|[<-|[]]]; simpl; auto).
  assert (Ml : free_of [LF; NUL] (HTTP_METHOD_STRINGS m) = true)
    by (destruct m; reflexivity).
  set (M := HTTP_METHOD_STRINGS m) in *.
  replace (M ++ [SP] ++ p ++ [SP] ++ tail ++ LF :: rest)
    with ((M ++ [SP] ++ p ++ [SP] ++ tail) ++ LF :: rest)
    by (rewrite <- !app_assoc; reflexivity).
  destruct (recv_req_first_line (M ++ [SP] ++ p ++ [SP] ++ tail) rest f e)
    as [Hg Hc].
  { rewrite !free_of_app, Ml, Hl, Htail. reflexivity. }
  unfold recv_req. rewrite Hg, Hc.
  replace ((M ++ [SP] ++ p ++ [SP] ++ tail) ++ [LF])
    with (repeat SP 0 ++ M ++ SP :: (repeat SP 0 ++ p ++ SP :: (tail ++ [LF])))
    by (cbn [repeat]; rewrite <- !app_assoc; reflexivity).
  rewrite strtok_r_token by assumption.
  unfold M at 1. rewrite lookup_method_string.
  rewrite strtok_r_token by assumption.
  now rewrite Hslash.
Qed.

Lemma recv_req_target_without_slash_witness :
  recv_req (rd_of (B "GET http://example.com/ HTTP/1.1" ++ CRLF ++ CRLF) 0)
  = (Err E_MALFORMED_HEAD, rd_of CRLF 0).
Proof.
  refine (recv_req_target_without_slash HTTP_GET (B "http://example.com/")
            (B "HTTP/1.1" ++ [CR]) CRLF None 0 _ eq_refl eq_refl eq_refl).
  discriminate.
Defined.

(** The third word must be [HTTP/1.1] followed by CR LF: any other
    protocol, and a line closed by LF alone, is a malformed head. *)
Theorem recv_req_protocol_mismatch (m : http_method) (p proto rest : bytes)
    (f : option Z) (e : Z) :
  wire_path p = true ->
  free_of [SP; LF; NUL] proto = true ->
  proto <> B "HTTP/1.1" ++ [CR] ->
  recv_req (mk_rd (HTTP_METHOD_STRINGS m ++ [SP] ++ p ++ [SP] ++ proto ++ LF :: rest) f e)
  = (Err E_MALFORMED_HEAD, mk_rd rest f e).
Proof.
  intros Hp Hproto Hneq.
  unfold wire_path in Hp. apply andb_true_iff in Hp as [Hslash Hfree].
  destruct (method_string_token m) as (Mne & Msp & Mlf & Mnul).
  assert (Hsp : free_of [SP] p = true)
    by (eapply free_of_incl; [|exact Hfree]; intros x [<-|[]]; simpl; auto).
  assert (Hl : free_of [LF; NUL] p = true)
    by (eapply free_of_incl; [|exact Hfree]; intros x [<-|[<-|[]]]; simpl; auto).
  assert (Hpne : p <> []) by (destruct p; [discriminate | congruence]).
  assert (Ml : free_of [LF; NUL] (HTTP_METHOD_STRINGS m) = true)
    by (destruct m; reflexivity).
  assert (Hprl : free_of [LF; NUL] proto = true)
    by (eapply free_of_incl; [|exact Hproto]; intros x [<-|[<-|[]]]; simpl; auto).
  assert (Hprs : free_of [SP] proto = true)
    by (eapply free_of_incl; [|exact Hproto]; intros x [<-|[]]; simpl; auto).
  set (M := HTTP_METHOD_STRINGS m) in *.
  replace (M ++ [SP] ++ p ++ [SP] ++ proto ++ LF :: rest)
    with ((M ++ [SP] ++ p ++ [SP] ++ proto) ++ LF :: rest)
    by (rewrite <- !app_assoc; reflexivity).
  destruct (recv_req_first_line (M ++ [SP] ++ p ++ [SP] ++ proto) rest f e)
    as [Hg Hc].
  { rewrite !free_of_app, Ml, Hl, Hprl. reflexivity. }
  unfold recv_req. rewrite Hg, Hc.
  replace ((M ++ [SP] ++ p ++ [SP] ++ proto) ++ [LF])
    with (repeat SP 0 ++ M ++ SP :: (repeat SP 0 ++ p ++ SP :: (repeat SP 0 ++ (proto ++ [LF]))))
    by (cbn [repeat]; rewrite <- !app_assoc; reflexivity).
  rewrite strtok_r_token by assumption.
  unfold M at 1. rewrite lookup_method_string.
  rewrite strtok_r_token by assumption.
  rewrite Hslash. cbn [negb].
  rewrite strtok_r_last.
  2:{ destruct proto; discriminate. }
  2:{ rewrite free_of_app, Hprs. reflexivity. }
  unfold strcmp0. rewrite bytes_eqb_neq; [reflexivity|].
  intros E. apply Hneq.
  change (B "HTTP/1.1" ++ CRLF) with ((B "HTTP/1.1" ++ [CR]) ++ [LF]) in E.
  now apply app_inj_tail in E as [E _].
Qed.

Lemma recv_req_protocol_mismatch_witness :
  recv_req (rd_of (B "GET / HTTP/1.1" ++ [LF] ++ [LF]) 0)
  = (Err E_MALFORMED_HEAD, rd_of [LF] 0)
  /\ recv_req (rd_of (B "GET / HTTP/1.0" ++ CRLF ++ CRLF) 0)
     = (Err E_MALFORMED_HEAD, rd_of CRLF 0).
Proof.
  split.
  - refine (recv_req_protocol_mismatch HTTP_GET (B "/") (B "HTTP/1.1") [LF] None 0
              eq_refl eq_refl _). discriminate.
  - refine (recv_req_protocol_mismatch HTTP_GET (B "/") (B "HTTP/1.0" ++ [CR]) CRLF
              None 0 eq_refl eq_refl _). discriminate.
Defined.

(** ** Header blocks *)

(** One line without colon spoils the block: whatever well-formed headers
    precede it, when their lines and the offending one fit, with their NUL,
    in the line buffer the request line leaves, [recv_req] returns -3 and
    no request, and the stream is left right after the offending line. *)
Theorem recv_req_bad_header_line (m : http_method) (p : bytes)
    (hs : list http_header) (bad rest : bytes) (f : option Z) (e : Z) :
  wire_path p = true ->
  forallb wire_header hs = true ->
  free_of [COLON; LF] bad = true ->
  bad <> [CR] ->
  let line_n :=
    line_buffer (HTTP_METHOD_STRINGS m ++ [SP] ++ p ++ [SP]
                   ++ B "HTTP/1.1" ++ CRLF) in
  headers_fit line_n hs = true ->
  (length (bad ++ [LF]) <? line_n) = true ->
  recv_req (mk_rd (HTTP_METHOD_STRINGS m ++ [SP] ++ p ++ [SP] ++ B "HTTP/1.1" ++ CRLF
                     ++ headers_text hs ++ bad ++ LF :: rest) f e)
  = (Err E_MALFORMED_HEADERS, mk_rd rest f e).
Proof.
  intros Hp Hhs Hbad Hne line_n Hfit Hfitbad.
  change (HTTP_METHOD_STRINGS m ++ [SP] ++ p ++ [SP] ++ B "HTTP/1.1" ++ CRLF)
    with (spaced_request_line m p 0 0) in line_n.
  assert (Hbc : free_of [COLON] bad = true)
    by (eapply free_of_incl; [|exact Hbad]; intros x [<-|[]]; simpl; auto).
  assert (Hbl : free_of [LF] bad = true)
    by (eapply free_of_incl; [|exact Hbad]; intros x [<-|[]]; simpl; auto).
  replace (HTTP_METHOD_STRINGS m ++ [SP] ++ p ++ [SP] ++ B "HTTP/1.1" ++ CRLF
             ++ headers_text hs ++ bad ++ LF :: rest)
    with (spaced_request_line m p 0 0 ++ headers_text hs ++ bad ++ LF :: rest)
    by (unfold spaced_request_line; cbn [repeat]; rewrite <- !app_assoc; reflexivity).
  rewrite recv_req_head by assumption. fold line_n.
  assert (Hloop : forall acc,
            extract_header (mk_rd (headers_text hs ++ bad ++ LF :: rest) f e)
                           line_n false acc
            = (Err E_MALFORMED_HEADERS, mk_rd rest f e, false)).
  { clear Hp. clearbody line_n. induction hs as [|h hs IH]; intros acc.
    - cbn [headers_text map concat app].
      rewrite extract_header_eq, getline_line by assumption.
      rewrite (parse_header_line_malformed
                 (mk_rd (bad ++ LF :: rest) f e) (bad ++ [LF]) (mk_rd rest f e)).
      + destruct (getline_fits _ _ Hfitbad) as [_ ->]. reflexivity.
      + now apply getline_line.
      + rewrite free_of_app, Hbc. reflexivity.
      + intros E. apply Hne.
        change CRLF with ([CR] ++ [LF]) in E. now apply app_inj_tail in E as [E _].
    - cbn [forallb] in Hhs. apply andb_true_iff in Hhs as [Hh Hhs].
      unfold headers_fit in Hfit. cbn [forallb] in Hfit.
      apply andb_true_iff in Hfit as [Hf Hfs].
      unfold headers_text. cbn [map concat]. rewrite <- app_assoc.
      rewrite wire_header_line by assumption. now apply IH. }
  now rewrite Hloop.
Qed.

Lemma recv_req_bad_header_line_witness :
  recv_req (rd_of (B "GET / HTTP/1.1" ++ CRLF ++ B "Host: x" ++ CRLF
                     ++ B "garbage" ++ CRLF ++ CRLF) 0)
  = (Err E_MALFORMED_HEADERS, rd_of CRLF 0).
Proof.
  refine (recv_req_bad_header_line HTTP_GET (B "/") [mk_header (B "Host") (B "x")]
            (B "garbage" ++ [CR]) CRLF None 0 eq_refl eq_refl eq_refl _
            eq_refl eq_refl).
  discriminate.
Defined.

(** The value of a header ends at the first CR or LF after it, whatever
    follows on the line, and at the end of the line when there is neither:
    a CR inside a value cuts it, and a last line that the stream ends
    without terminator still gives a header. *)
Theorem header_value_ends_at_cr_or_lf (k v t : bytes) (n : nat) (c : ascii) :
  free_of [COLON; NUL] k = true ->
  free_of [CR; LF; NUL] v = true ->
  starts_with SP v = false ->
  mem c CRLF = true ->
  parse_header_line (k ++ [COLON] ++ repeat SP n ++ v ++ c :: t)
  = HL_header (mk_header k v)
  /\ parse_header_line (k ++ [COLON] ++ repeat SP n ++ v)
     = HL_header (mk_header k v).
Proof.
  intros Hk Hv Hsp Hc.
  assert (Hk0 : free_of [NUL] k = true)
    by (eapply free_of_incl; [|exact Hk]; intros x [<-|[]]; simpl; auto).
  assert (Hkc : free_of [COLON] k = true)
    by (eapply free_of_incl; [|exact Hk]; intros x [<-|[]]; simpl; auto).
  assert (Hv0 : free_of [NUL] v = true)
    by (eapply free_of_incl; [|exact Hv]; intros x [<-|[]]; simpl; auto).
  assert (Hvc : free_of CRLF v = true)
    by (eapply free_of_incl; [|exact Hv]; intros x [<-|[<-|[]]]; simpl; auto).
  assert (Hc0 : Ascii.eqb c NUL = false).
  { unfold mem, CRLF in Hc. cbn [existsb] in Hc.
    destruct (Ascii.eqb c CR) eqn:E1.
    - apply Ascii.eqb_eq in E1. now subst c.
    - destruct (Ascii.eqb c LF) eqn:E2; [|discriminate].
      apply Ascii.eqb_eq in E2. now subst c. }
  assert (Hcsp : Ascii.eqb c SP = false).
  { unfold mem, CRLF in Hc. cbn [existsb] in Hc.
    destruct (Ascii.eqb c CR) eqn:E1.
    - apply Ascii.eqb_eq in E1. now subst c.
    - destruct (Ascii.eqb c LF) eqn:E2; [|discriminate].
      apply Ascii.eqb_eq in E2. now subst c. }
  assert (Hgen : forall tail ctail,
            c_str tail = ctail ->
            (ctail = [] \/ exists t', ctail = c :: t') ->
            parse_header_line (k ++ [COLON] ++ repeat SP n ++ v ++ tail)
            = HL_header (mk_header k v)).
  { intros tail ctail Hct Hshape. unfold parse_header_line.
    replace (k ++ [COLON] ++ repeat SP n ++ v ++ tail)
      with ((k ++ [COLON] ++ repeat SP n ++ v) ++ tail)
      by (rewrite <- !app_assoc; reflexivity).
    rewrite c_str_app.
    2:{ rewrite !free_of_app, Hk0, Hv0.
        rewrite free_of_repeat by reflexivity. reflexivity. }
    rewrite Hct. rewrite <- !app_assoc.
    set (after := repeat SP n ++ v ++ ctail).
    replace (strcmp0 (k ++ [COLON] ++ after) CRLF) with false.
    2:{ symmetry. apply bytes_eqb_neq. intros E.
        assert (Hin : In COLON (k ++ [COLON] ++ after))
          by (apply in_or_app; right; left; reflexivity).
        rewrite E in Hin. simpl in Hin.
        destruct Hin as [H|[H|[]]]; discriminate H. }
    change (k ++ [COLON] ++ after) with (k ++ COLON :: after).
    rewrite strcspn_stop by (assumption || reflexivity).
    rewrite skipn_app_exact. change (negb (Ascii.eqb COLON COLON)) with false.
    cbv iota. unfold strndup. rewrite firstn_app_exact. unfold after.
    assert (Hsp' : starts_with SP (v ++ ctail) = false).
    { destruct v; [|exact Hsp]. destruct Hshape as [-> | [t' ->]]; [reflexivity|].
      exact Hcsp. }
    rewrite strspn_spaces by assumption. rewrite skipn_repeat_app.
    destruct Hshape as [-> | [t' ->]].
    - rewrite app_nil_r, strcspn_all by assumption. now rewrite firstn_all.
    - rewrite strcspn_stop by assumption. now rewrite firstn_app_exact. }
  split.
  - apply (Hgen (c :: t) (c :: c_str t)).
    + cbn [c_str]. now rewrite Hc0.
    + right. eauto.
  - rewrite <- (app_nil_r v) at 1. apply (Hgen [] []); [reflexivity | now left].
Qed.

Lemma header_value_ends_at_cr_or_lf_witness :
  parse_header_line (B "X: a" ++ [CR] ++ B "b" ++ CRLF)
  = HL_header (mk_header (B "X") (B "a"))
  /\ parse_header_line (B "X: a") = HL_header (mk_header (B "X") (B "a")).
Proof.
  exact (header_value_ends_at_cr_or_lf (B "X") (B "a") (B "b" ++ CRLF) 1 CR
           eq_refl eq_refl eq_refl eq_refl).
Defined.

(** ** Skipping the head of a malformed request *)

Opaque fgets.

Lemma clear_http_head_eq st :
  clear_http_head st =
  match fgets 1024 st with
  | (None, st') => st'
  | (Some buf, st') =>
      if strcmp0 (c_str buf) CRLF then st' else clear_http_head st'
  end.
Proof.
  rewrite clear_http_head_equation_1.
  destruct (inspect (fgets 1024 st)) as [[[buf|] st'] Hline];
    cbv beta iota delta [clear_http_head_unfold_clause_1];
    rewrite Hline; reflexivity.
Qed.

Transparent fgets.

Lemma fgets_split_line k l rest :
  free_of [LF] l = true -> length l < k ->
  fgets_split k (l ++ LF :: rest) = (l ++ [LF], rest).
Proof.
  revert k. induction l as [|x l IH]; intros k Hl Hk.
  - destruct k; [simpl in Hk; lia | reflexivity].
  - destruct k; [simpl in Hk; lia|].
    rewrite free_of_cons in Hl. apply andb_true_iff in Hl as [Hx Hl].
    rewrite mem_single in Hx. cbn [app fgets_split].
    destruct (Ascii.eqb x LF); [discriminate|].
    rewrite IH by (assumption || (simpl in Hk; lia)). reflexivity.
Qed.

Lemma fgets_split_full k l rest :
  free_of [LF] l = true -> length l = k ->
  fgets_split k (l ++ rest) = (l, rest).
Proof.
  revert k. induction l as [|x l IH]; intros k Hl Hk.
  - simpl in Hk. subst k. reflexivity.
  - destruct k; [discriminate|].
    rewrite free_of_cons in Hl. apply andb_true_iff in Hl as [Hx Hl].
    rewrite mem_single in Hx. cbn [app fgets_split].
    destruct (Ascii.eqb x LF); [discriminate|].
    rewrite IH by (assumption || (simpl in Hk; lia)). reflexivity.
Qed.

Lemma fgets_line n l rest f e :
  free_of [LF] l = true -> S (length l) < n ->
  fgets n (mk_rd (l ++ LF :: rest) f e) = (Some (l ++ [LF]), mk_rd rest f e).
Proof.
  intros Hl Hn. unfold fgets. cbn [rd_pending rd_fault rd_errno].
  rewrite fgets_split_line by (assumption || lia).
  destruct l; reflexivity.
Qed.

Lemma fgets_full n l rest f e :
  free_of [LF] l = true -> S (length l) = n -> l <> [] ->
  fgets n (mk_rd (l ++ rest) f e) = (Some l, mk_rd rest f e).
Proof.
  intros Hl Hn Hne. unfold fgets. cbn [rd_pending rd_fault rd_errno].
  rewrite fgets_split_full by (assumption || lia).
  destruct l; [congruence | reflexivity].
Qed.

Lemma c_str_line_not_blank b :
  free_of [LF] b = true -> b <> [CR] -> strcmp0 (c_str (b ++ [LF])) CRLF = false.
Proof.
  intros Hb Hne. apply bytes_eqb_neq. intros E.
  apply c_str_crlf in E as [t E]. cbn [app] in E.
  destruct b as [|x [|y b]]; cbn [app] in E.
  - discriminate.
  - inversion E; subst. congruence.
  - inversion E; subst. cbn in Hb. discriminate.
Qed.

Lemma c_str_no_lf b : free_of [LF] b = true -> strcmp0 (c_str b) CRLF = false.
Proof.
  intros Hb. apply bytes_eqb_neq. intros E.
  apply c_str_crlf in E as [t E]. subst b. cbn in Hb. discriminate.
Qed.

Lemma clear_http_head_lines bs : forall tail f e,
  forallb head_line bs = true ->
  clear_http_head (mk_rd (lines_text bs ++ tail) f e)
  = clear_http_head (mk_rd tail f e).
Proof.
  induction bs as [|b bs IH]; intros tail f e Hbs; [reflexivity|].
  cbn [forallb] in Hbs. apply andb_true_iff in Hbs as [Hb Hbs].
  unfold head_line in Hb. apply andb_true_iff in Hb as [Hb Hcr].
  apply andb_true_iff in Hb as [Hlf Hlen].
  apply Nat.ltb_lt in Hlen. apply negb_true_iff in Hcr.
  assert (Hne : b <> [CR])
    by (intros ->; rewrite bytes_eqb_refl in Hcr; discriminate).
  unfold lines_text. cbn [map concat]. rewrite <- !app_assoc. cbn [app].
  rewrite clear_http_head_eq, fgets_line by (assumption || lia).
  rewrite c_str_line_not_blank by assumption.
  now apply IH.
Qed.

(** [clear_http_head] reads the stream up to and including the first blank
    line and stops there; when no blank line comes, it reads to the end of
    the stream.  (The lines are shorter than its buffer of 1024 bytes.) *)
Theorem clear_http_head_drains (bs : list bytes) (rest : bytes)
    (f : option Z) (e : Z) :
  forallb head_line bs = true ->
  clear_http_head (mk_rd (lines_text bs ++ CRLF ++ rest) f e) = mk_rd rest f e
  /\ rd_pending (clear_http_head (mk_rd (lines_text bs) f e)) = [].
Proof.
  intros Hbs. split.
  - rewrite clear_http_head_lines by assumption.
    rewrite clear_http_head_eq.
    change (CRLF ++ rest) with ([CR] ++ LF :: rest).
    rewrite fgets_line by (reflexivity || (simpl; lia)). reflexivity.
  - rewrite <- (app_nil_r (lines_text bs)).
    rewrite clear_http_head_lines by assumption.
    rewrite clear_http_head_eq. reflexivity.
Qed.

Lemma clear_http_head_drains_witness :
  clear_http_head (rd_of (B "Host: x" ++ [CR; LF] ++ B "junk" ++ [LF]
                            ++ CRLF ++ B "body") 0)
  = rd_of (B "body") 0.
Proof.
  exact (proj1 (clear_http_head_drains [B "Host: x" ++ [CR]; B "junk"]
                  (B "body") None 0 eq_refl)).
Defined.

(** [fgets] cuts a long line into pieces of 1023 bytes, and
    [clear_http_head] takes each piece for a line: the CR LF that closes a
    line of exactly 1023 bytes is read as a piece of its own, and ends the
    skipping as a blank line would. *)
Theorem clear_http_head_long_line (junk rest : bytes) (f : option Z) (e : Z) :
  free_of [LF] junk = true ->
  length junk = 1023 ->
  clear_http_head (mk_rd (junk ++ CRLF ++ rest) f e) = mk_rd rest f e.
Proof.
  intros Hlf Hlen.
  rewrite clear_http_head_eq, fgets_full; try assumption.
  2:{ rewrite Hlen. reflexivity. }
  2:{ intros ->. discriminate Hlen. }
  rewrite c_str_no_lf by assumption.
  rewrite clear_http_head_eq.
  change (CRLF ++ rest) with ([CR] ++ LF :: rest).
  rewrite fgets_line by (reflexivity || (simpl; lia)). reflexivity.
Qed.

Lemma clear_http_head_long_line_witness :
  clear_http_head (rd_of (repeat "a"%char 1023 ++ CRLF ++ B "Host: x" ++ CRLF ++ CRLF) 0)
  = rd_of (B "Host: x" ++ CRLF ++ CRLF) 0.
Proof.
  apply (clear_http_head_long_line (repeat "a"%char 1023)
           (B "Host: x" ++ CRLF ++ CRLF) None 0).
  - apply free_of_repeat. reflexivity.
  - apply repeat_length.
Defined.

(** ** The body of the response, on the client *)

Opaque fread_conn fwrite.

Lemma copy_response_eq st sink :
  copy_response st sink =
  let '(buffer, failed, st') := fread_conn 1024 st in
  if failed
  then (Some 1%Z, [Log_perror (B "Error while reading stream")], sink)
  else
    let (write_ln, sink') := fwrite buffer 1 (length buffer) sink in
    if write_ln <? length buffer
    then (Some 1%Z, [Log_perror (B "Error while writing stream")], sink')
    else if length buffer <? 1024 then (None, [], sink')
    else copy_response st' sink'.
Proof.
  rewrite copy_response_equation_1.
  destruct (inspect (fread_conn 1024 st)) as [[[buffer [|]] st'] Hread].
  - simp copy_response. rewrite Hread. reflexivity.
  - simp copy_response.
    destruct (inspect (fwrite buffer 1 (length buffer) sink)) as [[write_ln sink'] Hwrite].
    simp copy_response.
    destruct (inspect (write_ln <? length buffer)) as [[|] Hshort]; simp copy_response;
      [rewrite Hread; cbv beta iota; rewrite Hwrite; cbv beta iota;
       now rewrite Hshort|].
    destruct (inspect (length buffer <? 1024)) as [[|] Hlast];
      unfold copy_response_unfold_clause_1_clause_2_clause_1_clause_2;
      rewrite Hread; cbv beta iota; rewrite Hwrite; cbv beta iota;
      rewrite Hshort, Hlast; reflexivity.
Qed.

Transparent fread_conn fwrite.

Lemma firstn_add_skipn {A} a k (l : list A) :
  firstn (a + k) l = firstn a l ++ firstn k (skipn a l).
Proof.
  revert l. induction a as [|a IH]; intros l; [reflexivity|].
  destruct l as [|x l]; cbn [Nat.add firstn skipn app].
  - now rewrite firstn_nil.
  - now rewrite IH.
Qed.

(** What the copy loop of the client does with the [pending] bytes of a
    connection: [whole] is the part made of complete buffers. *)
Lemma copy_response_spec : forall n pending fault e w,
  length pending <= n ->
  copy_response (mk_rd pending fault e) (mk_os w false)
  = match fault with
    | None => (None, [], mk_os (w ++ pending) false)
    | Some _ =>
        (Some 1%Z, [Log_perror (B "Error while reading stream")],
         mk_os (w ++ firstn (1024 * (length pending / 1024)) pending) false)
    end.
Proof.
  induction n as [n IH] using lt_wf_ind. intros pending fault e w Hn.
  rewrite copy_response_eq. unfold fread_conn.
  cbn [rd_pending rd_fault rd_errno].
  remember 1024 as N eqn:HN.
  assert (HNpos : 0 < N) by (subst N; lia).
  destruct (length (firstn N pending) <? N) eqn:Hshort.
  - apply Nat.ltb_lt in Hshort. rewrite length_firstn in Hshort.
    assert (Hlen : length pending < N) by lia.
    assert (Hall : firstn N pending = pending) by (apply firstn_all2; lia).
    destruct fault as [err|].
    + rewrite Nat.div_small by assumption. rewrite Nat.mul_0_r.
      cbn [firstn]. now rewrite app_nil_r.
    + rewrite Hall. unfold fwrite. rewrite Nat.mul_1_l. cbn [os_broken os_written].
      destruct (length pending =? 0) eqn:Hz.
      * apply Nat.eqb_eq in Hz. rewrite Hz.
        replace (0 <? N) with true by (symmetry; now apply Nat.ltb_lt).
        cbn [Nat.ltb Nat.leb].
        destruct pending; [now rewrite app_nil_r | discriminate].
      * rewrite Nat.ltb_irrefl, firstn_all.
        replace (length pending <? N) with true by (symmetry; now apply Nat.ltb_lt).
        reflexivity.
  - apply Nat.ltb_ge in Hshort. rewrite length_firstn in Hshort.
    assert (Hlen : N <= length pending) by lia.
    assert (Hgot : length (firstn N pending) = N) by (rewrite length_firstn; lia).
    unfold fwrite. rewrite Nat.mul_1_l, Hgot. cbn [os_broken os_written].
    replace (N =? 0) with false by (symmetry; apply Nat.eqb_neq; lia).
    rewrite Nat.ltb_irrefl.
    rewrite firstn_firstn, Nat.min_id.
    rewrite (IH (length (skipn N pending))).
    2:{ rewrite length_skipn. lia. }
    2:{ reflexivity. }
    destruct fault as [err|].
    + rewrite <- app_assoc. do 3 f_equal.
      rewrite length_skipn.
      replace (length pending) with ((length pending - N) + 1 * N) at 2 by lia.
      rewrite Nat.div_add by lia.
      replace (N * ((length pending - N) / N + 1))
        with (N + N * ((length pending - N) / N)) by lia.
      now rewrite firstn_add_skipn.
    + now rewrite <- app_assoc, firstn_skipn.
Qed.

(** The copy loop of the client writes to the sink every byte the
    connection still holds when the peer closes it, and reports no failure. *)
Theorem copy_response_all (pending w : bytes) (e : Z) :
  copy_response (mk_rd pending None e) (mk_os w false)
  = (None, [], mk_os (w ++ pending) false).
Proof.
  now rewrite (copy_response_spec (length pending) pending None e w).
Qed.

(** When reading the connection fails, the client stops with
    [EXIT_FAILURE] and the message "Error while reading stream"; the sink
    has received the complete buffers of 1024 bytes read before, and the
    bytes of the last, shorter read are lost. *)
Theorem copy_response_read_error (pending w : bytes) (err e : Z) :
  copy_response (mk_rd pending (Some err) e) (mk_os w false)
  = (Some 1%Z, [Log_perror (B "Error while reading stream")],
     mk_os (w ++ firstn (1024 * (length pending / 1024)) pending) false).
Proof.
  now rewrite (copy_response_spec (length pending) pending (Some err) e w).
Qed.

(** ** The URL given to the client *)

Lemma skipn_plus {A} a b (l : list A) : skipn (a + b) l = skipn b (skipn a l).
Proof. now rewrite Nat.add_comm, <- skipn_skipn. Qed.

Lemma strcspn_split r set :
  free_of set (firstn (strcspn r set) r) = true
  /\ opens_with set (skipn (strcspn r set) r) = true.
Proof.
  induction r as [|x r [IH1 IH2]]; [split; reflexivity|].
  cbn [strcspn]. destruct (mem x set) eqn:E.
  - split; [reflexivity | exact E].
  - cbn [firstn skipn]. rewrite free_of_cons, E, IH1. split; [reflexivity | exact IH2].
Qed.

Lemma strcspn_prefix host path set :
  free_of set host = true -> opens_with set path = true ->
  strcspn (host ++ path) set = length host.
Proof.
  intros Hh Hp. destruct path as [|c path].
  - rewrite app_nil_r. now apply strcspn_all.
  - now apply strcspn_stop.
Qed.

(** [parse_url] splits a URL that starts with [http://] at the first of the
    characters [; / ? : @ = &]: what precedes is the host, and the path is
    everything from that character on, kept as it is (it may be empty, and
    need not start with a slash). *)
Theorem parse_url_accepts (host path : bytes) :
  free_of url_delimiters host = true ->
  opens_with url_delimiters path = true ->
  parse_url (B "http://" ++ host ++ path) = Ok (host, path).
Proof.
  intros Hh Hp. unfold parse_url, strncmp0.
  change 7 with (length (B "http://")).
  rewrite firstn_app_exact, firstn_all, bytes_eqb_refl. cbn [negb].
  rewrite skipn_app_exact.
  fold url_delimiters. rewrite strcspn_prefix by assumption.
  unfold strndup. rewrite firstn_app_exact.
  rewrite skipn_plus, !skipn_app_exact. reflexivity.
Qed.

Lemma parse_url_accepts_witness :
  parse_url (B "http://example.com:8080/a/b?x=1")
  = Ok (B "example.com", B ":8080/a/b?x=1")
  /\ parse_url (B "http://example.com") = Ok (B "example.com", []).
Proof.
  split.
  - exact (parse_url_accepts (B "example.com") (B ":8080/a/b?x=1") eq_refl eq_refl).
  - exact (parse_url_accepts (B "example.com") [] eq_refl eq_refl).
Defined.

(** Whatever [parse_url] returns is a split of the URL: the URL is
    [http://], then the host, then the path; the host holds none of the
    delimiters. *)
Theorem parse_url_sound (url host path : bytes) :
  parse_url url = Ok (host, path) ->
  url = B "http://" ++ host ++ path
  /\ free_of url_delimiters host = true
  /\ opens_with url_delimiters path = true.
Proof.
  unfold parse_url, strncmp0. rewrite skipn_plus.
  fold url_delimiters. set (r := skipn 7 url).
  destruct (bytes_eqb (firstn 7 url) (firstn 7 (B "http://"))) eqn:E;
    cbn [negb]; [|discriminate].
  apply bytes_eqb_eq in E. intros H. inversion H; subst host path; clear H.
  destruct (strcspn_split r url_delimiters) as [H1 H2].
  unfold strndup.
  repeat split; try assumption.
  rewrite firstn_skipn. unfold r.
  rewrite <- (firstn_skipn 7 url) at 1. now rewrite E.
Qed.

Lemma parse_url_sound_witness :
  B "http://h/x" = B "http://" ++ B "h" ++ B "/x"
  /\ free_of url_delimiters (B "h") = true
  /\ opens_with url_delimiters (B "/x") = true.
Proof.
  exact (parse_url_sound (B "http://h/x") (B "h") (B "/x") eq_refl).
Defined.

(** A URL that does not start with [http://] is refused with -2; in
    particular no other scheme and no upper case is accepted. *)
Lemma parse_url_rejects (url : bytes) :
  firstn 7 url <> B "http://" -> parse_url url = Err (-2)%Z.
Proof.
  intros H. unfold parse_url, strncmp0.
  rewrite bytes_eqb_neq; [reflexivity | exact H].
Qed.

(** ** The file written with the option -d *)

Lemma strrchr_none s c : free_of [c] s = true -> strrchr s c = None.
Proof.
  induction s as [|x s IH]; [reflexivity|].
  rewrite free_of_cons, mem_single. intros H.
  apply andb_true_iff in H as [Hx Hs].
  cbn [strrchr]. rewrite IH by assumption.
  now destruct (Ascii.eqb x c).
Qed.

Lemma strrchr_last a c b :
  free_of [c] b = true -> strrchr (a ++ c :: b) c = Some (c :: b).
Proof.
  intros Hb. induction a as [|x a IH].
  - cbn [app strrchr]. rewrite strrchr_none by assumption.
    now rewrite Ascii.eqb_refl.
  - cbn [app strrchr]. now rewrite IH.
Qed.

Lemma output_path_after_slash dir pre name query :
  name <> [] ->
  free_of [SLASH; "?"%char] name = true ->
  free_of [SLASH] query = true ->
  opens_with (B "?") query = true ->
  output_path dir (pre ++ [SLASH] ++ name ++ query) = dir ++ [SLASH] ++ name.
Proof.
  intros Hne Hname Hq Hopen.
  assert (Hns : free_of [SLASH] name = true)
    by (eapply free_of_incl; [|exact Hname]; intros x [<-|[]]; simpl; auto).
  assert (Hnq : free_of (B "?") name = true)
    by (eapply free_of_incl; [|exact Hname]; intros x [<-|[]]; simpl; auto).
  unfold output_path, output_name.
  change (pre ++ [SLASH] ++ name ++ query) with (pre ++ SLASH :: (name ++ query)).
  rewrite strrchr_last by (rewrite free_of_app, Hns, Hq; reflexivity).
  destruct name as [|c name]; [congruence|]. cbn [app].
  rewrite free_of_cons in Hname. apply andb_true_iff in Hname as [Hc _].
  assert (Hcq : Ascii.eqb c "?"%char = false).
  { destruct (Ascii.eqb c "?"%char) eqn:E; [|reflexivity].
    apply Ascii.eqb_eq in E. subst c. discriminate Hc. }
  rewrite Hcq.
  change (c :: name ++ query) with ((c :: name) ++ query).
  rewrite strcspn_prefix by assumption. now rewrite firstn_app_exact.
Qed.

(** With the option -d the response is stored under the directory, in a
    file named after what follows the last slash of the path of the URL, up
    to the first question mark; the name is [index.html] when the path
    holds no slash, whatever it holds, or when its last slash is its last
    character or is followed by a question mark.  The last slash is looked
    for in the whole path, query included, so a slash in the query names
    the file. *)
Theorem output_path_name (dir pre name query other : bytes) :
  name <> [] ->
  free_of [SLASH; "?"%char] name = true ->
  free_of [SLASH] query = true ->
  opens_with (B "?") query = true ->
  free_of [SLASH] other = true ->
  output_path dir (pre ++ [SLASH] ++ name ++ query) = dir ++ [SLASH] ++ name
  /\ output_path dir (pre ++ [SLASH] ++ query) = dir ++ B "/index.html"
  /\ output_path dir other = dir ++ B "/index.html".
Proof.
  intros Hne Hname Hq Hopen Hother. split; [now apply output_path_after_slash|].
  unfold output_path, output_name. split.
  - change (pre ++ [SLASH] ++ query) with (pre ++ SLASH :: query).
    rewrite strrchr_last by assumption.
    destruct query as [|c query]; [reflexivity|].
    cbn [opens_with] in Hopen. change (B "?") with ["?"%char] in Hopen.
    rewrite mem_single in Hopen. rewrite Hopen. reflexivity.
  - rewrite strrchr_none by assumption. reflexivity.
Qed.

Lemma output_path_name_witness :
  (output_path (B "out") (B "/en/about.html?lang=en") = B "out/about.html"
   /\ output_path (B "out") (B "/en/?lang=en") = B "out/index.html"
   /\ output_path (B "out") (B ":8080") = B "out/index.html")
  /\ output_path (B "out") (B "/a.html?next=/b.html") = B "out/b.html"
  /\ output_path (B "out") (B "?lang=en") = B "out/index.html".
Proof.
  assert (Ha : B "about.html" <> []) by discriminate.
  assert (Hb : B "b.html" <> []) by discriminate.
  split; [|split].
  - exact (output_path_name (B "out") (B "/en") (B "about.html") (B "?lang=en")
             (B ":8080") Ha eq_refl eq_refl eq_refl eq_refl).
  - exact (proj1 (output_path_name (B "out") (B "/a.html?next=") (B "b.html") []
                    [] Hb eq_refl eq_refl eq_refl eq_refl)).
  - exact (proj2 (proj2 (output_path_name (B "out") [] (B "x") []
                           (B "?lang=en") ltac:(discriminate)
                           eq_refl eq_refl eq_refl eq_refl))).
Defined.

(** ** The content type *)

(** The content type depends only on what follows the last dot of the file
    name, compared letter for letter with [html], [htm], [css] and [js]:
    any other extension, in particular one in upper case or one that holds
    a slash because the last dot sits in a directory name, gives no
    Content-Type; so does a name without dot. *)
Theorem mime_of_extension (stem ext : bytes) :
  free_of (B ".") ext = true ->
  mime_of (stem ++ B "." ++ ext)
  = (if bytes_eqb ext (B "html") || bytes_eqb ext (B "htm")
     then Some (B "text/html")
     else if bytes_eqb ext (B "css") then Some (B "text/css")
     else if bytes_eqb ext (B "js") then Some (B "application/javascript")
     else None)
  /\ mime_of ext = None.
Proof.
  intros Hext. unfold mime_of. split.
  - change (stem ++ B "." ++ ext) with (stem ++ "."%char :: ext).
    rewrite strrchr_last by assumption. reflexivity.
  - now rewrite strrchr_none.
Qed.

Lemma mime_of_extension_witness :
  mime_of (B "/srv/v1.2/page.html") = Some (B "text/html")
  /\ mime_of (B "/srv/v1.2/README") = None
  /\ mime_of (B "/srv/PAGE.HTML") = None.
Proof.
  split; [|split].
  - exact (proj1 (mime_of_extension (B "/srv/v1.2/page") (B "html") eq_refl)).
  - exact (proj1 (mime_of_extension (B "/srv/v1") (B "2/README") eq_refl)).
  - exact (proj1 (mime_of_extension (B "/srv/PAGE") (B "HTML") eq_refl)).
Defined.

(** ** The server, request by request *)

(** A request [recv_req] rejects as malformed: one line is written on
    standard error, the rest of its head is skipped and no file is opened.
    When no byte of the client is then left unread, the request is answered
    with one 400 response without body.  When some are (a body, a second
    request), the response cannot be written over them: nothing is sent,
    and the failure is reported on standard error. *)
Theorem serve_malformed_request (env : server_env) (d w : bytes)
    (st st1 : rd_state) (c : Z) :
  clock env = Some d ->
  recv_req st = (Err c, st1) ->
  c = E_MALFORMED_HEAD \/ c = E_MALFORMED_HEADERS ->
  serve_connection env st (mk_os w false)
  = match rd_pending (clear_http_head st1) with
    | [] =>
        mk_served
          (mk_os (w ++ B "HTTP/1.1 400 Bad Request" ++ CRLF
                    ++ B "Date: " ++ d ++ CRLF
                    ++ B "Content-Length: 0" ++ CRLF
                    ++ B "Connection: close" ++ CRLF ++ CRLF) false)
          (clear_http_head st1)
          [Log_fprintf (B "Received malformed packet" ++ [LF])]
          None true Continue
    | _ :: _ =>
        mk_served
          (mk_os w true)
          (clear_http_head st1)
          [Log_fprintf (B "Received malformed packet" ++ [LF]);
           Log_perror (B "Failed to send response")]
          None true Continue
    end.
Proof.
  intros Hclock Hrecv Hc. unfold serve_connection. rewrite Hrecv, Hclock.
  replace ((c =? -2)%Z || (c =? -3)%Z) with true
    by (destruct Hc as [-> | ->]; reflexivity).
  cbv iota. unfold conn_out.
  destruct (rd_pending (clear_http_head st1)) as [|x unread].
  - rewrite send_res_written. change (0 =? -1)%Z with false. cbv iota.
    unfold res_text, plain_res, status_line, headers_text.
    cbn [status_code code description res_header res_body map concat].
    reflexivity.
  - reflexivity.
Qed.

Lemma serve_malformed_request_witness :
  serve_connection srv_env
    (rd_of (B "FETCH / HTTP/1.1" ++ CRLF ++ B "Host: x" ++ CRLF ++ CRLF) 0)
    os_empty
  = mk_served
      (mk_os (B "HTTP/1.1 400 Bad Request" ++ CRLF
                ++ B "Date: Mon, 02 Jan 2023 10:00:00 GMT" ++ CRLF
                ++ B "Content-Length: 0" ++ CRLF
                ++ B "Connection: close" ++ CRLF ++ CRLF) false)
      (rd_of [] 0)
      [Log_fprintf (B "Received malformed packet" ++ [LF])]
      None true Continue
  /\ serve_connection srv_env
       (rd_of (B "FETCH / HTTP/1.1" ++ CRLF ++ B "Host: x" ++ CRLF ++ CRLF
                 ++ B "next") 0)
       os_empty
     = mk_served
         (mk_os [] true)
         (rd_of (B "next") 0)
         [Log_fprintf (B "Received malformed packet" ++ [LF]);
          Log_perror (B "Failed to send response")]
         None true Continue.
Proof.
  split.
  - exact (serve_malformed_request srv_env (B "Mon, 02 Jan 2023 10:00:00 GMT") []
             (rd_of (B "FETCH / HTTP/1.1" ++ CRLF ++ B "Host: x" ++ CRLF ++ CRLF) 0)
             (rd_of (B "Host: x" ++ CRLF ++ CRLF) 0)
             E_MALFORMED_HEAD eq_refl eq_refl (or_introl eq_refl)).
  - exact (serve_malformed_request srv_env (B "Mon, 02 Jan 2023 10:00:00 GMT") []
             (rd_of (B "FETCH / HTTP/1.1" ++ CRLF ++ B "Host: x" ++ CRLF ++ CRLF
                       ++ B "next") 0)
             (rd_of (B "Host: x" ++ CRLF ++ CRLF ++ B "next") 0)
             E_MALFORMED_HEAD eq_refl eq_refl (or_introl eq_refl)).
Defined.

(** ** The client and the server together *)

Lemma client_request_decoded host path e :
  wire_value host = true -> wire_path path = true ->
  (length (header_text (mk_header (B "Host") host))
   <? line_buffer (request_line (client_request host path))) = true ->
  recv_req (rd_of (os_written (snd (send_req os_empty (client_request host path)))) e)
  = (Ok (mk_req HTTP_GET path [mk_header (B "Host") host; connection_close] None),
     rd_of [] e).
Proof.
  intros Hh Hp Hfit. unfold os_empty. rewrite send_req_written.
  cbn [snd os_written app]. unfold req_head_text, req_body_sent.
  assert (Hslash : starts_with_slash path = true)
    by (unfold wire_path in Hp; now apply andb_true_iff in Hp as [? _]).
  rewrite (request_line_spaced (client_request host path)) in * by assumption.
  unfold client_request in *.
  cbn [req_body req_header req_method req_path] in *. rewrite app_nil_r.
  unfold rd_of. rewrite recv_req_head by assumption.
  replace (headers_text [mk_header (B "Host") host] ++ [] ++ B "Connection: close" ++ CRLF ++ CRLF)
    with (headers_text [mk_header (B "Host") host; connection_close] ++ CRLF ++ [])
    by (unfold headers_text; cbn; rewrite <- ?app_assoc; reflexivity).
  pose proof (line_buffer_min (spaced_request_line HTTP_GET path 0 0)) as Hmin.
  rewrite extract_header_wire; [reflexivity | | | lia].
  - cbn [forallb]. unfold wire_header at 1. cbn [key value]. rewrite Hh.
    reflexivity.
  - unfold headers_fit. cbn [forallb]. rewrite Hfit. cbn [andb].
    rewrite andb_true_r. apply Nat.ltb_lt.
    change (length (header_text connection_close)) with 19. lia.
Qed.

Lemma mime_of_wire path mime :
  mime_of path = Some mime -> wire_value mime = true.
Proof.
  unfold mime_of. destruct (strrchr path "."%char) as [ext|]; [|discriminate].
  destruct (strcmp0 ext (B ".html") || strcmp0 ext (B ".htm"));
    [intros H; inversion H; reflexivity|].
  destruct (strcmp0 ext (B ".css")); [intros H; inversion H; reflexivity|].
  destruct (strcmp0 ext (B ".js")); [intros H; inversion H; reflexivity|].
  discriminate.
Qed.

(** The responses the server builds survive the wire. *)
Lemma file_response_wire env path :
  let res := fst (file_response env path) in
  (LONG_MIN <= code (status_code res) <= LONG_MAX)%Z
  /\ free_of [CR; LF; NUL] (description (status_code res)) = true
  /\ forallb wire_header (res_header res) = true.
Proof.
  unfold file_response. destruct (fs_open env path) as [body|errno].
  - destruct (mime_of path) as [mime|] eqn:E; cbn.
    + apply mime_of_wire in E. unfold wire_header. cbn [key value].
      rewrite E. unfold LONG_MIN, LONG_MAX. repeat split; lia.
    + unfold LONG_MIN, LONG_MAX. repeat split; lia.
  - destruct (errno =? ENOENT)%Z; [|destruct (errno =? EACCES)%Z]; cbn;
      unfold LONG_MIN, LONG_MAX; repeat split; lia.
Qed.

(** A decoded GET request that leaves nothing unread: one response,
    chosen by [file_response]. *)
Lemma serve_get env d st st1 req w :
  clock env = Some d ->
  recv_req st = (Ok req, st1) ->
  req_method req = HTTP_GET ->
  rd_pending st1 = [] ->
  serve_connection env st (mk_os w false)
  = mk_served
      (mk_os (w ++ res_text d (fst (file_response env (resolve_path env (req_path req)))))
             false)
      st1
      (snd (file_response env (resolve_path env (req_path req))) ++ [])
      (Some (resolve_path env (req_path req))) true Continue.
Proof.
  intros Hclock Hrecv Hm Hpend. unfold serve_connection.
  rewrite Hrecv, Hm, Hclock. unfold conn_out. rewrite Hpend.
  change (0 =? -1)%Z with false. cbv iota.
  destruct (file_response env (resolve_path env (req_path req))) as [res log].
  rewrite send_res_written. reflexivity.
Qed.

(** The three headers [send_res] adds fit a buffer of 120 bytes when the
    date and the length are short. *)
Lemma added_headers_fit d res :
  length d < 112 ->
  length (print_long (match res_body res with
                      | Some body => remaining_length body
                      | None => 0%Z
                      end)) < 102 ->
  headers_fit 120 (added_headers d res) = true.
Proof.
  intros Hd Hl. unfold headers_fit, added_headers. cbn [forallb].
  unfold header_text. cbn [key value]. rewrite !length_app.
  change (length (B "Date")) with 4. change (length (B ": ")) with 2.
  change (length CRLF) with 2. change (length (B "Content-Length")) with 14.
  rewrite !andb_true_iff. repeat split; solve [apply Nat.ltb_lt; lia | reflexivity].
Qed.

(** The client in front of a response that survives the wire. *)
Lemma client_exchange_reply host path w1 d res e w :
  (LONG_MIN <= code (status_code res) <= LONG_MAX)%Z ->
  free_of [CR; LF; NUL] (description (status_code res)) = true ->
  forallb wire_header (res_header res) = true ->
  wire_value d = true ->
  headers_fit (line_buffer (status_line res))
              (res_header res ++ added_headers d res) = true ->
  client_exchange host path (mk_os w1 false) (rd_of (res_text d res) e)
                  (mk_os w false)
  = if (code (status_code res) =? 200)%Z
    then mk_run 0 [] (mk_os (w ++ body_bytes (res_body res)) false)
                (mk_os (w1 ++ req_head_text (client_request host path)) false)
                false
    else mk_run 3
           [Log_fprintf (print_long (code (status_code res)) ++ [SP]
                           ++ description (status_code res) ++ [LF])]
           (mk_os w false)
           (mk_os (w1 ++ req_head_text (client_request host path)) false)
           false.
Proof.
  intros Hcode Hdescr Hhs Hd Hfit. unfold client_exchange.
  fold (client_request host path). rewrite send_req_written.
  change (0 =? -1)%Z with false. cbv iota.
  unfold rd_of. rewrite recv_res_res_text by assumption.
  cbn [status_code code description].
  change (req_body_sent (client_request host path)) with (@nil ascii).
  rewrite app_nil_r.
  destruct (code (status_code res) =? 200)%Z; cbn [negb]; [|reflexivity].
  rewrite (copy_response_spec (length (body_bytes (res_body res)))) by lia.
  reflexivity.
Qed.

(** The responses the server builds fit the line buffer of the client. *)
Lemma file_response_fits env path d :
  let res := fst (file_response env path) in
  length d < 112 ->
  (forall body, fs_open env path = Opened body ->
                length (print_long (remaining_length body)) < 102) ->
  headers_fit (line_buffer (status_line res))
              (res_header res ++ added_headers d res) = true.
Proof.
  unfold file_response. intros Hd Hl.
  destruct (fs_open env path) as [body|errno].
  - specialize (Hl body eq_refl).
    unfold mime_of.
    destruct (strrchr path "."%char) as [ext|];
      [destruct (strcmp0 ext (B ".html") || strcmp0 ext (B ".htm"));
       [|destruct (strcmp0 ext (B ".css"));
         [|destruct (strcmp0 ext (B ".js"))]]|];
      cbn [fst res_header app];
      change (line_buffer (status_line _)) with 120;
      try (apply added_headers_fit; assumption);
      (unfold headers_fit; cbn [forallb]; apply andb_true_iff;
       split; [reflexivity | apply added_headers_fit; assumption]).
  - destruct (errno =? ENOENT)%Z; [|destruct (errno =? EACCES)%Z];
      cbn [fst res_header app plain_res];
      change (line_buffer (status_line _)) with 120;
      apply added_headers_fit; (assumption || (cbn; lia)).
Qed.

(** A client and a server that nothing separates, when the Host line fits
    the line buffer of the server and the lines of the Date and of the
    Content-Length that of the client: when the file the request resolves
    to (the document root, the path and, after a last slash, the index
    name) can be opened, the client receives the bytes that remain in it,
    writes them all to its sink, prints nothing and exits with status 0;
    the server has answered with a single response and logged nothing. *)
Theorem client_fetches_file (env : server_env) (host path d w : bytes)
    (body : file) :
  wire_value host = true ->
  wire_path path = true ->
  clock env = Some d ->
  wire_value d = true ->
  length (header_text (mk_header (B "Host") host))
  < line_buffer (request_line (client_request host path)) ->
  length d < 112 ->
  length (print_long (remaining_length body)) < 102 ->
  let name :=
    doc_root env ++ path
      ++ (if Ascii.eqb (last path NUL) SLASH then index env else []) in
  fs_open env name = Opened body ->
  fetched_from env host path (mk_os w false)
  = mk_run 0 [] (mk_os (w ++ f_remaining body) false)
           (mk_os (req_head_text (client_request host path)) false) false
  /\ sv_stderr (served_to env host path) = []
  /\ sv_opened (served_to env host path) = Some name
  /\ sv_next (served_to env host path) = Continue.
Proof.
  intros Hh Hp Hclock Hd Hfit Hdl Hbl name Hopen.
  assert (Hslash : starts_with_slash path = true)
    by (unfold wire_path in Hp; now apply andb_true_iff in Hp as [? _]).
  pose proof (resolve_path_of_request env path Hslash) as Hname.
  fold name in Hname.
  apply Nat.ltb_lt in Hfit.
  unfold fetched_from, served_to.
  rewrite (serve_get env d _ (rd_of [] 0)
             (mk_req HTTP_GET path [mk_header (B "Host") host; connection_close] None)
             []) ;
    [| assumption | now apply client_request_decoded | reflexivity | reflexivity].
  cbn [sv_wire sv_stderr sv_opened sv_next os_written req_path app].
  rewrite Hname.
  destruct (file_response_wire env name) as (Hc & Hdescr & Hhs).
  assert (Hfits : headers_fit
                    (line_buffer (status_line (fst (file_response env name))))
                    (res_header (fst (file_response env name))
                       ++ added_headers d (fst (file_response env name))) = true).
  { apply file_response_fits; [assumption|].
    intros body' E. rewrite Hopen in E. inversion E. now subst body'. }
  unfold os_empty. rewrite client_exchange_reply by assumption.
  unfold file_response in *. rewrite Hopen in *.
  destruct (mime_of name); cbn; repeat split.
Qed.

Lemma client_fetches_file_witness :
  fetched_from srv_env (B "example.com") (B "/") os_empty
  = mk_run 0 [] (mk_os (B "<h1>Hi</h1>") false)
           (mk_os (B "GET / HTTP/1.1" ++ CRLF ++ B "Host: example.com" ++ CRLF
                     ++ B "Connection: close" ++ CRLF ++ CRLF) false) false
  /\ sv_opened (served_to srv_env (B "example.com") (B "/"))
     = Some (B "/srv/index.html").
Proof.
  assert (H1 : length (header_text (mk_header (B "Host") (B "example.com")))
               < line_buffer (request_line (client_request (B "example.com") (B "/"))))
    by (vm_compute; lia).
  assert (H2 : length (B "Mon, 02 Jan 2023 10:00:00 GMT") < 112)
    by (vm_compute; lia).
  assert (H3 : length (print_long (remaining_length (mk_file (B "<h1>Hi</h1>") 0)))
               < 102) by (vm_compute; lia).
  destruct (client_fetches_file srv_env (B "example.com") (B "/")
              (B "Mon, 02 Jan 2023 10:00:00 GMT") []
              (mk_file (B "<h1>Hi</h1>") 0)
              eq_refl eq_refl eq_refl eq_refl H1 H2 H3 eq_refl)
    as (Hrun & _ & Hopened & _).
  split; [exact Hrun | exact Hopened].
Defined.

(** The same two, when the file cannot be opened: the server answers 404
    when the file does not exist, 403 when access is denied and 500
    otherwise; the client prints the status line of that answer on standard
    error, writes nothing to its sink and exits with status 3. *)
Theorem client_reports_missing_file (env : server_env) (host path d w : bytes)
    (errno : Z) :
  wire_value host = true ->
  wire_path path = true ->
  clock env = Some d ->
  wire_value d = true ->
  length (header_text (mk_header (B "Host") host))
  < line_buffer (request_line (client_request host path)) ->
  length d < 112 ->
  let name :=
    doc_root env ++ path
      ++ (if Ascii.eqb (last path NUL) SLASH then index env else []) in
  fs_open env name = Open_failed errno ->
  cl_exit (fetched_from env host path (mk_os w false)) = 3%Z
  /\ cl_fault (fetched_from env host path (mk_os w false)) = false
  /\ cl_sink (fetched_from env host path (mk_os w false)) = mk_os w false
  /\ cl_stderr (fetched_from env host path (mk_os w false))
     = [Log_fprintf
          ((if (errno =? ENOENT)%Z then B "404 Not Found"
            else if (errno =? EACCES)%Z then B "403 Forbidden"
            else B "500 Internal Server Error") ++ [LF])]
  /\ sv_opened (served_to env host path) = Some name.
Proof.
  intros Hh Hp Hclock Hd Hfit Hdl name Hopen.
  assert (Hslash : starts_with_slash path = true)
    by (unfold wire_path in Hp; now apply andb_true_iff in Hp as [? _]).
  pose proof (resolve_path_of_request env path Hslash) as Hname.
  fold name in Hname.
  apply Nat.ltb_lt in Hfit.
  unfold fetched_from, served_to.
  rewrite (serve_get env d _ (rd_of [] 0)
             (mk_req HTTP_GET path [mk_header (B "Host") host; connection_close] None)
             []) ;
    [| assumption | now apply client_request_decoded | reflexivity | reflexivity].
  cbn [sv_wire sv_opened os_written req_path app].
  rewrite Hname.
  destruct (file_response_wire env name) as (Hc & Hdescr & Hhs).
  assert (Hfits : headers_fit
                    (line_buffer (status_line (fst (file_response env name))))
                    (res_header (fst (file_response env name))
                       ++ added_headers d (fst (file_response env name))) = true).
  { apply file_response_fits; [assumption|].
    intros body' E. rewrite Hopen in E. discriminate E. }
  unfold os_empty. rewrite client_exchange_reply by assumption.
  unfold file_response in *. rewrite Hopen in *.
  destruct (errno =? ENOENT)%Z; [|destruct (errno =? EACCES)%Z]; cbn; repeat split.
Qed.

Lemma client_reports_missing_file_witness :
  cl_exit (fetched_from srv_env (B "example.com") (B "/missing.html") os_empty) = 3%Z
  /\ cl_sink (fetched_from srv_env (B "example.com") (B "/missing.html") os_empty)
     = os_empty
  /\ cl_stderr (fetched_from srv_env (B "example.com") (B "/missing.html") os_empty)
     = [Log_fprintf (B "404 Not Found" ++ [LF])]
  /\ sv_opened (served_to srv_env (B "example.com") (B "/missing.html"))
     = Some (B "/srv/missing.html").
Proof.
  assert (H1 : length (header_text (mk_header (B "Host") (B "example.com")))
               < line_buffer (request_line
                                (client_request (B "example.com") (B "/missing.html"))))
    by (vm_compute; lia).
  assert (H2 : length (B "Mon, 02 Jan 2023 10:00:00 GMT") < 112)
    by (vm_compute; lia).
  destruct (client_reports_missing_file srv_env (B "example.com") (B "/missing.html")
              (B "Mon, 02 Jan 2023 10:00:00 GMT") [] ENOENT
              eq_refl eq_refl eq_refl eq_refl H1 H2 eq_refl)
    as (Hexit & _ & Hsink & Hlog & Hopened).
  repeat split; assumption.
Defined.

(** ** Header lines longer than the line buffer *)






(** ** [main] of the client *)

(** Before it connects, the client gives up with status 1 and leaves the
    network alone: on a URL that does not start with [http://], with the
    message "Invalid URL" and without opening any file; and, the URL being
    well formed, when the file of the option -o cannot be opened, with the
    message of [perror]. *)
Theorem client_main_gives_up_early (args : client_args) (w : client_world) :
  (firstn 7 (arg_url args) <> B "http://" ->
   client_main args w
   = mk_outcome 1 [Log_fprintf (B "Invalid URL" ++ [LF])] [] None None None
                false)
  /\ (forall file,
        firstn 7 (arg_url args) = B "http://" ->
        arg_file args = Some file ->
        cw_fopen w file = None ->
        client_main args w
        = mk_outcome 1 [Log_perror (B "Failed to open file")] [file]
                     None None None false).
Proof.
  unfold client_main, parse_url, strncmp0. split.
  - intros H. rewrite bytes_eqb_neq by exact H. reflexivity.
  - intros file Hurl Hfile Hopen.
    rewrite Hurl. change (firstn 7 (B "http://")) with (B "http://").
    rewrite bytes_eqb_refl. cbn [negb]. now rewrite Hfile, Hopen.
Qed.

Lemma client_main_gives_up_early_witness :
  client_main (mk_args (B "80") (B "ftp://example.com/") None None)
              (mk_world (fun _ => None) (fun _ _ => Refused None) os_empty)
  = mk_outcome 1 [Log_fprintf (B "Invalid URL" ++ [LF])] [] None None None
               false
  /\ client_main (mk_args (B "80") (B "http://example.com/") (Some (B "/ro/out")) None)
                 (mk_world (fun _ => None) (fun _ _ => Refused None) os_empty)
     = mk_outcome 1 [Log_perror (B "Failed to open file")] [B "/ro/out"]
                  None None None false.
Proof.
  split.
  - refine (proj1 (client_main_gives_up_early
                     (mk_args (B "80") (B "ftp://example.com/") None None)
                     (mk_world (fun _ => None) (fun _ _ => Refused None) os_empty)) _).
    discriminate.
  - exact (proj2 (client_main_gives_up_early
                    (mk_args (B "80") (B "http://example.com/") (Some (B "/ro/out")) None)
                    (mk_world (fun _ => None) (fun _ _ => Refused None) os_empty))
                 (B "/ro/out") eq_refl eq_refl eq_refl).
Defined.

(** With the option -d alone and a well-formed URL, the client opens under
    the directory the file named after the last segment of the path, then
    connects to the host of the URL on the given port, and exchanges the
    request for that path with that file as its sink. *)
Theorem client_main_with_dir (w : client_world) (port host pre name query dir : bytes)
    (f wire : out_stream) (reply : rd_state) :
  free_of url_delimiters host = true ->
  opens_with url_delimiters (pre ++ [SLASH] ++ name ++ query) = true ->
  name <> [] ->
  free_of [SLASH; "?"%char] name = true ->
  free_of [SLASH] query = true ->
  opens_with (B "?") query = true ->
  cw_fopen w (dir ++ [SLASH] ++ name) = Some f ->
  cw_connect w host port = Connected wire reply ->
  let path := pre ++ [SLASH] ++ name ++ query in
  let r := client_exchange host path wire reply f in
  client_main (mk_args port (B "http://" ++ host ++ path) None (Some dir)) w
  = mk_outcome (cl_exit r) (cl_stderr r) [dir ++ [SLASH] ++ name]
               (Some (host, port)) (Some (cl_sink r)) (Some (cl_wire r))
               (cl_fault r).
Proof.
  intros Hhost Hpath Hne Hname Hq Hopen Hf Hconn path r. subst r path.
  unfold client_main. cbn [arg_url arg_file arg_dir arg_port].
  assert (Hurl : parse_url (B "http://" ++ host ++ pre ++ [SLASH] ++ name ++ query)
                 = Ok (host, pre ++ [SLASH] ++ name ++ query)).
  { unfold parse_url, strncmp0.
    change 7 with (length (B "http://")).
    rewrite firstn_app_exact, firstn_all, bytes_eqb_refl. cbn [negb].
    rewrite skipn_app_exact.
    fold url_delimiters. rewrite strcspn_prefix by assumption.
    unfold strndup. rewrite firstn_app_exact.
    rewrite skipn_plus, !skipn_app_exact. reflexivity. }
  rewrite Hurl.
  rewrite output_path_after_slash by assumption.
  rewrite Hf, Hconn. reflexivity.
Qed.

Lemma client_main_with_dir_witness :
  co_opened
    (client_main (mk_args (B "8080") (B "http://example.com/en/about.html?x=1")
                          None (Some (B "out")))
                 (mk_world (fun _ => Some os_empty)
                           (fun _ _ => Connected os_empty (rd_of [] 0)) os_empty))
  = [B "out/about.html"].
Proof.
  assert (Hne : B "about.html" <> []) by discriminate.
  pose proof (client_main_with_dir
                (mk_world (fun _ => Some os_empty)
                          (fun _ _ => Connected os_empty (rd_of [] 0)) os_empty)
                (B "8080") (B "example.com") (B "/en") (B "about.html") (B "?x=1")
                (B "out") os_empty os_empty (rd_of [] 0)
                eq_refl eq_refl Hne eq_refl eq_refl eq_refl eq_refl eq_refl) as H.
  cbv zeta in H.
  change (B "http://" ++ B "example.com" ++ B "/en" ++ [SLASH] ++ B "about.html" ++ B "?x=1")
    with (B "http://example.com/en/about.html?x=1") in H.
  rewrite H. reflexivity.
Defined.
